(** * Scroll visibility controller (src/js/mobile-scroll-ui.js)

    A shallow embedding of the controller that shows and hides the
    table-of-contents container and the "back to top" button, in the
    variant with the auto-hide timer (the second script of
    mobile-scroll-ui.js).  The browser is a record of the values the script
    reads (scroll offset, viewport, clock) and of the tables it writes
    (timeouts, animation-frame callbacks, listeners); the closure variables
    of the DOMContentLoaded handler are fields of the controller state; each
    function of the script is a function on that state.

    Numbers: [window.scrollY], [window.innerHeight] and the timer handles
    are JavaScript numbers holding integers here and are modelled in [Z].
    [Math.floor(window.innerHeight * 0.6)] is [h * 6 / 10] on [Z]: for an
    integral height below 2^50 the double product is within 0.2 of the
    exact one and lands on the integer when 5 divides the height, so the
    floor is the floor of the exact quotient. *)

From Stdlib Require Import ZArith List String Bool Lia.
Import ListNotations.
Open Scope Z_scope.

(** ** DOMTokenList *)

Module ClassList.

(** An ordered set of class names, as [element.classList]. *)
Definition t := list string.

Definition contains (c : string) (l : t) : bool :=
  existsb (String.eqb c) l.

Definition add (c : string) (l : t) : t :=
  if contains c l then l else l ++ [c].

Definition remove (c : string) (l : t) : t :=
  filter (fun x => negb (String.eqb c x)) l.

(** [classList.toggle(c, force)] with the [force] argument given. *)
Definition toggle (c : string) (force : bool) (l : t) : t :=
  if force then add c l else remove c l.

End ClassList.

(** ** The page *)

(** [details.toc-details]: only its [open] attribute is read. *)
Record Details := mkDetails { open : bool }.

(** [#toc-container], with the disclosure widget that
    [tocContainer.querySelector('details.toc-details')] finds, if any. *)
Record TocElement := mkToc {
  tocClassList : ClassList.t;
  tocChild : option Details
}.

(** [#back-to-top]. *)
Record Element := mkElement { classList : ClassList.t }.

(** The result of the two [getElementById] lookups; [None] is [null]. *)
Record Dom := mkDom {
  tocContainer : option TocElement;
  backToTopButton : option Element
}.

(** [const tocDetails = tocContainer ? tocContainer.querySelector(...) : null] *)
Definition tocDetails (d : Dom) : option Details :=
  match tocContainer d with
  | Some toc => tocChild toc
  | None => None
  end.

Inductive DomEvent := Scroll | Touchstart | Click | Resize | Toggle.

(** The functions the script hands to [addEventListener]. *)
Inductive Callback := CbOnScroll | CbScheduleAutoHide | CbResize | CbToggle.

(** A pending [setTimeout]: its handle and the time it is due.  The only
    function the script ever hands to [setTimeout] is the auto-hide
    closure, so the callback is not stored. *)
Record Timeout := mkTimeout { handle : Z; fireAt : Z }.

Record Window := mkWindow {
  scrollY : Z;
  innerHeight : Z;
  viewportWidth : Z;
  (** [typeof window.matchMedia === 'function'] *)
  matchMediaIsFunction : bool;
  (** milliseconds *)
  clock : Z;
  timeouts : list Timeout;
  nextTimeoutHandle : Z;
  (** number of [update] callbacks queued by [requestAnimationFrame] *)
  animationFrameCallbacks : nat;
  listeners : list (DomEvent * Callback)
}.

Record Page := mkPage { pageWindow : Window; pageDocument : Dom }.

(** ** The controller: the page and the closure variables *)

Record State := mkState {
  window : Window;
  document : Dom;
  lastScrollY : Z;
  rafPending : bool;
  enableHideAfterPixels : Z;
  autoHideTimeoutId : option Z
}.

Definition set_window (w : Window) (st : State) : State :=
  mkState w (document st) (lastScrollY st) (rafPending st)
          (enableHideAfterPixels st) (autoHideTimeoutId st).

Definition set_document (d : Dom) (st : State) : State :=
  mkState (window st) d (lastScrollY st) (rafPending st)
          (enableHideAfterPixels st) (autoHideTimeoutId st).

Definition set_lastScrollY (y : Z) (st : State) : State :=
  mkState (window st) (document st) y (rafPending st)
          (enableHideAfterPixels st) (autoHideTimeoutId st).

Definition set_rafPending (b : bool) (st : State) : State :=
  mkState (window st) (document st) (lastScrollY st) b
          (enableHideAfterPixels st) (autoHideTimeoutId st).

Definition set_enableHideAfterPixels (p : Z) (st : State) : State :=
  mkState (window st) (document st) (lastScrollY st) (rafPending st)
          p (autoHideTimeoutId st).

Definition set_autoHideTimeoutId (i : option Z) (st : State) : State :=
  mkState (window st) (document st) (lastScrollY st) (rafPending st)
          (enableHideAfterPixels st) i.

(** ** Browser primitives *)

Definition set_scrollY (y : Z) (w : Window) : Window :=
  mkWindow y (innerHeight w) (viewportWidth w) (matchMediaIsFunction w)
           (clock w) (timeouts w) (nextTimeoutHandle w)
           (animationFrameCallbacks w) (listeners w).

Definition set_viewport (width height : Z) (w : Window) : Window :=
  mkWindow (scrollY w) height width (matchMediaIsFunction w)
           (clock w) (timeouts w) (nextTimeoutHandle w)
           (animationFrameCallbacks w) (listeners w).

Definition set_clock (t : Z) (w : Window) : Window :=
  mkWindow (scrollY w) (innerHeight w) (viewportWidth w)
           (matchMediaIsFunction w) t (timeouts w) (nextTimeoutHandle w)
           (animationFrameCallbacks w) (listeners w).

Definition set_timeouts (ts : list Timeout) (w : Window) : Window :=
  mkWindow (scrollY w) (innerHeight w) (viewportWidth w)
           (matchMediaIsFunction w) (clock w) ts (nextTimeoutHandle w)
           (animationFrameCallbacks w) (listeners w).

Definition set_animationFrameCallbacks (n : nat) (w : Window) : Window :=
  mkWindow (scrollY w) (innerHeight w) (viewportWidth w)
           (matchMediaIsFunction w) (clock w) (timeouts w)
           (nextTimeoutHandle w) n (listeners w).

(** [window.clearTimeout(h)]: an unknown handle is ignored. *)
Definition clearTimeout (h : Z) (w : Window) : Window :=
  set_timeouts (filter (fun t => negb (handle t =? h)) (timeouts w)) w.

(** [window.setTimeout(autoHide, delay)]: the handle returned and the
    window with the timeout pending. *)
Definition setTimeout (delay : Z) (w : Window) : Z * Window :=
  let h := nextTimeoutHandle w in
  (h, mkWindow (scrollY w) (innerHeight w) (viewportWidth w)
               (matchMediaIsFunction w) (clock w)
               (timeouts w ++ [mkTimeout h (clock w + delay)]) (h + 1)
               (animationFrameCallbacks w) (listeners w)).

(** [window.requestAnimationFrame(update)] *)
Definition requestAnimationFrame (w : Window) : Window :=
  set_animationFrameCallbacks (S (animationFrameCallbacks w)) w.

(** [window.addEventListener(type, callback)] and
    [tocDetails.addEventListener('toggle', callback)] *)
Definition addEventListener (e : DomEvent) (cb : Callback) (w : Window) : Window :=
  mkWindow (scrollY w) (innerHeight w) (viewportWidth w)
           (matchMediaIsFunction w) (clock w) (timeouts w)
           (nextTimeoutHandle w) (animationFrameCallbacks w)
           (listeners w ++ [(e, cb)]).

(** [window.matchMedia('(max-width: 899px)').matches] *)
Definition matchesMaxWidth899 (w : Window) : bool := viewportWidth w <=? 899.

(** ** The script *)

(** [typeof window !== 'undefined'] holds wherever the script runs. *)
Definition isMobileViewport (w : Window) : bool :=
  matchMediaIsFunction w && matchesMaxWidth899 w.

Definition className : string := "scroll-direction-hidden".
Definition minDelta : Z := 8.
Definition autoHideDelayMs : Z := 5000.

(** [Math.max(200, Math.floor(window.innerHeight * 0.6))] *)
Definition hideAfterPixels (w : Window) : Z := Z.max 200 (innerHeight w * 6 / 10).

(** [tocDetails && tocDetails.open] as a condition *)
Definition tocDetailsOpen (st : State) : bool :=
  match tocDetails (document st) with
  | Some d => open d
  | None => false
  end.

Definition clearAutoHideTimer (st : State) : State :=
  match autoHideTimeoutId st with
  | Some h => set_autoHideTimeoutId None (set_window (clearTimeout h (window st)) st)
  | None => st
  end.

Definition scheduleAutoHide (st : State) : State :=
  let st := clearAutoHideTimer st in
  if negb (isMobileViewport (window st)) then st
  else if scrollY (window st) <? enableHideAfterPixels st then st
  else if tocDetailsOpen st then st
  else
    let (h, w) := setTimeout autoHideDelayMs (window st) in
    set_autoHideTimeoutId (Some h) (set_window w st).

Definition setScrollDirectionHidden (isHidden : bool) (st : State) : State :=
  let d := document st in
  let toc' :=
    match tocContainer d with
    | Some toc =>
        let shouldHideToc := isHidden && negb (tocDetailsOpen st) in
        Some (mkToc (ClassList.toggle className shouldHideToc (tocClassList toc))
                    (tocChild toc))
    | None => None
    end in
  let btt' :=
    match backToTopButton d with
    | Some b => Some (mkElement (ClassList.toggle className isHidden (classList b)))
    | None => None
    end in
  let st := set_document (mkDom toc' btt') st in
  if negb isHidden then scheduleAutoHide st else clearAutoHideTimer st.

(** The closure handed to [setTimeout] in [scheduleAutoHide]. *)
Definition autoHide (st : State) : State :=
  if negb (isMobileViewport (window st)) then st
  else if scrollY (window st) <? enableHideAfterPixels st then st
  else if tocDetailsOpen st then st
  else setScrollDirectionHidden true st.

Definition update (st : State) : State :=
  let st := set_rafPending false st in
  if negb (isMobileViewport (window st)) then
    let st := setScrollDirectionHidden false st in
    set_lastScrollY (scrollY (window st)) st
  else
    let currentScrollY := scrollY (window st) in
    let delta := currentScrollY - lastScrollY st in
    if Z.abs delta <? minDelta then st
    else
      let isScrollingDown := 0 <? delta in
      let st :=
        if currentScrollY <? enableHideAfterPixels st
        then setScrollDirectionHidden false st
        else setScrollDirectionHidden isScrollingDown st in
      set_lastScrollY currentScrollY st.

Definition onScroll (st : State) : State :=
  if rafPending st then st
  else
    let st := set_rafPending true st in
    set_window (requestAnimationFrame (window st)) st.

(** The [resize] listener. *)
Definition onResize (st : State) : State :=
  let st := set_enableHideAfterPixels (hideAfterPixels (window st)) st in
  let st := set_lastScrollY (scrollY (window st)) st in
  update st.

(** The [toggle] listener of the disclosure widget. *)
Definition onToggle (st : State) : State :=
  if tocDetailsOpen st then
    let st := setScrollDirectionHidden false st in
    let st := set_lastScrollY (scrollY (window st)) st in
    clearAutoHideTimer st
  else scheduleAutoHide st.

(** What the DOMContentLoaded handler leaves behind: nothing when neither
    element exists, the wired controller otherwise. *)
Inductive Wiring :=
| NoController (p : Page)
| Controller (st : State).

Definition DOMContentLoaded (p : Page) : Wiring :=
  let d := pageDocument p in
  match tocContainer d, backToTopButton d with
  | None, None => NoController p
  | _, _ =>
      let w := pageWindow p in
      let st := mkState w d (scrollY w) false (hideAfterPixels w) None in
      let st := set_window (addEventListener Scroll CbOnScroll (window st)) st in
      let st := set_window (addEventListener Touchstart CbScheduleAutoHide (window st)) st in
      let st := set_window (addEventListener Click CbScheduleAutoHide (window st)) st in
      let st := set_window (addEventListener Resize CbResize (window st)) st in
      let st := update st in
      match tocDetails d with
      | Some _ => Controller (set_window (addEventListener Toggle CbToggle (window st)) st)
      | None => Controller st
      end
  end.

(** ** The event loop *)

Definition runCallback (cb : Callback) (st : State) : State :=
  match cb with
  | CbOnScroll => onScroll st
  | CbScheduleAutoHide => scheduleAutoHide st
  | CbResize => onResize st
  | CbToggle => onToggle st
  end.

Definition DomEvent_eqb (a b : DomEvent) : bool :=
  match a, b with
  | Scroll, Scroll | Touchstart, Touchstart | Click, Click
  | Resize, Resize | Toggle, Toggle => true
  | _, _ => false
  end.

(** Run the listeners registered for [e], in registration order. *)
Definition dispatch (e : DomEvent) (st : State) : State :=
  fold_left
    (fun s l => if DomEvent_eqb (fst l) e then runCallback (snd l) s else s)
    (listeners (window st)) st.

(** The [open] attribute of the disclosure widget is set by the browser
    (the user activates the summary); the [toggle] event is a later task. *)
Definition setOpen (b : bool) (d : Dom) : option Dom :=
  match tocContainer d with
  | Some toc =>
      match tocChild toc with
      | Some _ => Some (mkDom (Some (mkToc (tocClassList toc) (Some (mkDetails b))))
                              (backToTopButton d))
      | None => None
      end
  | None => None
  end.

Inductive Event :=
| ScrollTo (y : Z)                     (* the document is scrolled *)
| ViewportChanges (width height : Z)   (* the window is resized or rotated *)
| OpenChanges (b : bool)               (* the disclosure is opened or closed *)
| Elapse (ms : Z)                      (* time passes *)
| Fire (e : DomEvent)                  (* an event reaches its listeners *)
| AnimationFrame                       (* the frame callbacks run *)
| TimeoutFires (h : Z).                (* a due timeout runs *)

Definition step (e : Event) (st : State) : option State :=
  match e with
  | ScrollTo y => Some (set_window (set_scrollY y (window st)) st)
  | ViewportChanges width height =>
      Some (set_window (set_viewport width height (window st)) st)
  | OpenChanges b =>
      match setOpen b (document st) with
      | Some d => Some (set_document d st)
      | None => None
      end
  | Elapse ms =>
      if 0 <=? ms
      then Some (set_window (set_clock (clock (window st) + ms) (window st)) st)
      else None
  | Fire e => Some (dispatch e st)
  | AnimationFrame =>
      let n := animationFrameCallbacks (window st) in
      let st := set_window (set_animationFrameCallbacks 0 (window st)) st in
      Some (Nat.iter n update st)
  | TimeoutFires h =>
      match find (fun t => handle t =? h) (timeouts (window st)) with
      | Some t =>
          if fireAt t <=? clock (window st)
          then Some (autoHide (set_window (clearTimeout h (window st)) st))
          else None
      | None => None
      end
  end.

Fixpoint run (es : list Event) (st : State) : option State :=
  match es with
  | [] => Some st
  | e :: es' =>
      match step e st with
      | Some st' => run es' st'
      | None => None
      end
  end.

(** A page on which the script has not run yet: nothing of its own is
    pending or registered. *)
Definition pristine (p : Page) : Prop :=
  timeouts (pageWindow p) = [] /\
  animationFrameCallbacks (pageWindow p) = 0%nat /\
  listeners (pageWindow p) = [].

(** The states the controller can be in: wired on a pristine page, then
    any sequence of enabled events. *)
Inductive reachable : State -> Prop :=
| reachable_wired p st :
    pristine p -> DOMContentLoaded p = Controller st -> reachable st
| reachable_step e st st' :
    reachable st -> step e st = Some st' -> reachable st'.

(** ** Observations *)

Definition hasHiddenClass (l : ClassList.t) : bool := ClassList.contains className l.

(** The TOC container carries the class. *)
Definition tocHidden (st : State) : bool :=
  match tocContainer (document st) with
  | Some toc => hasHiddenClass (tocClassList toc)
  | None => false
  end.

(** The "back to top" button carries the class. *)
Definition backToTopHidden (st : State) : bool :=
  match backToTopButton (document st) with
  | Some b => hasHiddenClass (classList b)
  | None => false
  end.

(** The three conditions under which the auto-hide timer is armed and
    under which its callback acts. *)
Definition autoHideConditions (st : State) : bool :=
  isMobileViewport (window st)
  && (enableHideAfterPixels st <=? scrollY (window st))
  && negb (tocDetailsOpen st).

(** An example page: a phone, 500 x 700, both elements present and shown,
    the disclosure closed. *)
Definition phoneWindow (y : Z) : Window :=
  mkWindow y 700 500 true 0 [] 1 0 [].

Definition desktopWindow (y : Z) : Window :=
  mkWindow y 800 1200 true 0 [] 1 0 [].

Definition bothElements : Dom :=
  mkDom (Some (mkToc ["toc"%string] (Some (mkDetails false))))
        (Some (mkElement ["hidden"%string])).

Definition wired (p : Page) : option State :=
  match DOMContentLoaded p with
  | Controller st => Some st
  | NoController _ => None
  end.

Definition runPage (p : Page) (es : list Event) : option State :=
  match wired p with
  | Some st => run es st
  | None => None
  end.

(** ** Vocabulary of the statements *)

(** The timeouts left once [clearAutoHideTimer] has run. *)
Definition pendingAfterClear (st : State) : list Timeout :=
  match autoHideTimeoutId st with
  | Some h => filter (fun t => negb (handle t =? h)) (timeouts (window st))
  | None => timeouts (window st)
  end.

(** The document once [setScrollDirectionHidden] has toggled the class. *)
Definition toggled (isHidden : bool) (st : State) : Dom :=
  mkDom
    (match tocContainer (document st) with
     | Some toc =>
         Some (mkToc (ClassList.toggle className
                        (isHidden && negb (tocDetailsOpen st)) (tocClassList toc))
                     (tocChild toc))
     | None => None
     end)
    (match backToTopButton (document st) with
     | Some b => Some (mkElement (ClassList.toggle className isHidden (classList b)))
     | None => None
     end).

(** The state once [scheduleAutoHide] has called [setTimeout]. *)
Definition armed (st : State) : State :=
  set_autoHideTimeoutId (Some (nextTimeoutHandle (window st)))
    (set_window (snd (setTimeout autoHideDelayMs
                        (set_timeouts (pendingAfterClear st) (window st)))) st).

(** What no function of the script other than the [resize] listener
    changes: what it reads from the browser, the threshold, the state of
    the disclosure and the presence of the two elements. *)
Record steady (st st' : State) : Prop := mkSteady {
  steady_scrollY : scrollY (window st') = scrollY (window st);
  steady_innerHeight : innerHeight (window st') = innerHeight (window st);
  steady_viewportWidth : viewportWidth (window st') = viewportWidth (window st);
  steady_matchMedia :
    matchMediaIsFunction (window st') = matchMediaIsFunction (window st);
  steady_clock : clock (window st') = clock (window st);
  steady_listeners : listeners (window st') = listeners (window st);
  steady_threshold : enableHideAfterPixels st' = enableHideAfterPixels st;
  steady_details : tocDetails (document st') = tocDetails (document st);
  steady_toc :
    tocContainer (document st') = None <-> tocContainer (document st) = None;
  steady_backToTop :
    backToTopButton (document st') = None <-> backToTopButton (document st) = None
}.

(** Every pending timeout is the one the controller holds the handle of,
    and there is at most one. *)
Definition atMostOnePending (st : State) : Prop :=
  (List.length (timeouts (window st)) <= 1)%nat /\
  forall t, In t (timeouts (window st)) -> autoHideTimeoutId st = Some (handle t).

(** The part of the state the timer functions write. *)
Definition timerState (st : State) : list Timeout * Z * option Z :=
  (timeouts (window st), nextTimeoutHandle (window st), autoHideTimeoutId st).

Definition disarmedTimer (st : State) : list Timeout * Z * option Z :=
  ([], nextTimeoutHandle (window st), None).

Definition armedTimer (st : State) : list Timeout * Z * option Z :=
  let h := nextTimeoutHandle (window st) in
  ([mkTimeout h (clock (window st) + autoHideDelayMs)], h + 1, Some h).

(** What the DOMContentLoaded handler registers on a page with document [d]. *)
Definition registered (d : Dom) : list (DomEvent * Callback) :=
  [(Scroll, CbOnScroll); (Touchstart, CbScheduleAutoHide);
   (Click, CbScheduleAutoHide); (Resize, CbResize)]
  ++ match tocDetails d with
     | Some _ => [(Toggle, CbToggle)]
     | None => []
     end.

Definition listenersWired (st : State) : Prop :=
  listeners (window st) = registered (document st).

(** Handles are handed out in sequence, so [setTimeout] was called between
    two states exactly when the next handle moved.  A step arms the timer
    only when the three conditions hold in the state it leaves. *)
Definition armsOnlyWhen (st st' : State) : Prop :=
  nextTimeoutHandle (window st') = nextTimeoutHandle (window st) \/
  autoHideConditions st' = true.

(** The listeners of a page that has the disclosure widget. *)
Definition allListeners : list (DomEvent * Callback) :=
  [(Scroll, CbOnScroll); (Touchstart, CbScheduleAutoHide);
   (Click, CbScheduleAutoHide); (Resize, CbResize); (Toggle, CbToggle)].

(** The two elements of [bothElements], with or without the class, the
    disclosure open or closed. *)
Definition elements (hidden opened : bool) : Dom :=
  if hidden
  then mkDom (Some (mkToc ["toc"%string; className] (Some (mkDetails opened))))
             (Some (mkElement ["hidden"%string; className]))
  else mkDom (Some (mkToc ["toc"%string] (Some (mkDetails opened))))
             (Some (mkElement ["hidden"%string])).

(** Phone, disclosure opened at 500 px, then scrolled down to 900 px; the
    scroll event has been delivered, the frame has not run yet. *)
Definition openScrolledDown : State :=
  mkState (mkWindow 900 700 500 true 0 [] 1 1 allListeners)
          (elements false true) 500 true 420 None.

(** Phone, scrolled from 0 to 424 px (both elements hidden, threshold 420),
    then back up to 419 px; the frame has not run yet. *)
Definition nudgedBelowThreshold : State :=
  mkState (mkWindow 419 700 500 true 0 [] 1 1 allListeners)
          (elements true false) 424 true 420 None.

(** As above, but back up to 400 px. *)
Definition scrolledBelowThreshold : State :=
  mkState (mkWindow 400 700 500 true 0 [] 1 1 allListeners)
          (elements true false) 424 true 420 None.

(** Desktop, loaded at 100 px, scrolled to 103 px; the frame has not run. *)
Definition desktopNudged : State :=
  mkState (mkWindow 103 800 1200 true 0 [] 1 1 allListeners)
          (elements false false) 100 true 480 None.

(** Phone at 900 px: a click armed the timer, 5000 ms went by, the
    disclosure was opened; its toggle event has not been delivered. *)
Definition openTimerDue : State :=
  mkState (mkWindow 900 700 500 true 5000 [mkTimeout 1 5000] 2 0 allListeners)
          (elements false true) 900 false 420 (Some 1).

(** Phone, scrolled from 0 to 900 px in one jump: both elements hidden. *)
Definition hiddenAt900 : State :=
  mkState (mkWindow 900 700 500 true 0 [] 1 0 allListeners)
          (elements true false) 900 false 420 None.

(** ** The variant without the timer

    The first script of mobile-scroll-ui.js: the same controller with a
    fixed 50 px band at the top of the page and no auto-hide timer.  Its
    closure has two variables. *)

Module FixedThreshold.

Record State := mkState {
  window : Window;
  document : Dom;
  lastScrollY : Z;
  rafPending : bool
}.

Definition tocDetailsOpen (st : State) : bool :=
  match tocDetails (document st) with
  | Some d => open d
  | None => false
  end.

Definition setScrollDirectionHidden (isHidden : bool) (st : State) : State :=
  let d := document st in
  let toc' :=
    match tocContainer d with
    | Some toc =>
        let shouldHideToc := isHidden && negb (tocDetailsOpen st) in
        Some (mkToc (ClassList.toggle className shouldHideToc (tocClassList toc))
                    (tocChild toc))
    | None => None
    end in
  let btt' :=
    match backToTopButton d with
    | Some b => Some (mkElement (ClassList.toggle className isHidden (classList b)))
    | None => None
    end in
  mkState (window st) (mkDom toc' btt') (lastScrollY st) (rafPending st).

Definition update (st : State) : State :=
  let st := mkState (window st) (document st) (lastScrollY st) false in
  if negb (isMobileViewport (window st)) then
    let st := setScrollDirectionHidden false st in
    mkState (window st) (document st) (scrollY (window st)) (rafPending st)
  else
    let currentScrollY := scrollY (window st) in
    let delta := currentScrollY - lastScrollY st in
    if Z.abs delta <? minDelta then st
    else
      let isScrollingDown := 0 <? delta in
      let st :=
        if currentScrollY <? 50
        then setScrollDirectionHidden false st
        else setScrollDirectionHidden isScrollingDown st in
      mkState (window st) (document st) currentScrollY (rafPending st).

Definition onScroll (st : State) : State :=
  if rafPending st then st
  else mkState (requestAnimationFrame (window st)) (document st) (lastScrollY st) true.

(** The [resize] listener. *)
Definition onResize (st : State) : State :=
  update (mkState (window st) (document st) (scrollY (window st)) (rafPending st)).

(** The [toggle] listener of the disclosure widget. *)
Definition onToggle (st : State) : State :=
  if tocDetailsOpen st then
    let st := setScrollDirectionHidden false st in
    mkState (window st) (document st) (scrollY (window st)) (rafPending st)
  else st.

(** The elements carry the class. *)
Definition tocHidden (st : State) : bool :=
  match tocContainer (document st) with
  | Some toc => hasHiddenClass (tocClassList toc)
  | None => false
  end.

Definition backToTopHidden (st : State) : bool :=
  match backToTopButton (document st) with
  | Some b => hasHiddenClass (classList b)
  | None => false
  end.

End FixedThreshold.

(** ** The visibility of the "back to top" button

    The third script of mobile-scroll-ui.js: it puts the class [hidden] on
    [#back-to-top] until the page is scrolled further than one viewport
    height.  [animationFrameCallbacks] of its window counts the queued
    [updateVisibility] callbacks.  The click listener, which starts a
    smooth scroll to the top, is left out. *)

Module BackToTop.

Record State := mkState {
  window : Window;
  button : Element;
  (** [const showAfterPixels = window.innerHeight] *)
  showAfterPixels : Z;
  isTicking : bool
}.

Definition hiddenClass : string := "hidden".

Definition updateVisibility (st : State) : State :=
  let shouldShow := showAfterPixels st <? scrollY (window st) in
  mkState (window st)
          (mkElement (ClassList.toggle hiddenClass (negb shouldShow)
                        (classList (button st))))
          (showAfterPixels st) false.

Definition onScroll (st : State) : State :=
  if isTicking st then st
  else mkState (requestAnimationFrame (window st)) (button st)
               (showAfterPixels st) true.

(** The [resize] listener is [updateVisibility] itself.  The handler
    returns at once, [None], when the button is missing. *)
Definition DOMContentLoaded (w : Window) (b : option Element) : option State :=
  match b with
  | None => None
  | Some b => Some (updateVisibility (mkState w b (innerHeight w) false))
  end.

(** The browser scrolls or resizes the window; another script changes the
    classes of the button. *)
Definition set_window (w : Window) (st : State) : State :=
  mkState w (button st) (showAfterPixels st) (isTicking st).

Definition set_button (b : Element) (st : State) : State :=
  mkState (window st) b (showAfterPixels st) (isTicking st).

(** The button carries the class [hidden]. *)
Definition buttonHidden (st : State) : bool :=
  ClassList.contains hiddenClass (classList (button st)).

End BackToTop.

(** ** Vocabulary of the further properties *)

(** Membership of any class, on either element. *)
Definition tocHasClass (c : string) (st : State) : bool :=
  match tocContainer (document st) with
  | Some toc => ClassList.contains c (tocClassList toc)
  | None => false
  end.

Definition backToTopHasClass (c : string) (st : State) : bool :=
  match backToTopButton (document st) with
  | Some b => ClassList.contains c (classList b)
  | None => false
  end.

(** What a function or step leaves alone: the clock, the classes other
    than [scroll-direction-hidden], and the pending timeouts, up to
    cancelling some and adding ones due [autoHideDelayMs] from now. *)
Record bystander (st st' : State) : Prop := mkBystander {
  bystander_clock : clock (window st') = clock (window st);
  bystander_toc :
    forall c, c <> className -> tocHasClass c st' = tocHasClass c st;
  bystander_backToTop :
    forall c, c <> className -> backToTopHasClass c st' = backToTopHasClass c st;
  bystander_timeouts :
    forall t, In t (timeouts (window st')) ->
      In t (timeouts (window st)) \/
      fireAt t = clock (window st) + autoHideDelayMs
}.

(** Every pending timeout is due within [autoHideDelayMs]. *)
Definition dueWithinDelay (st : State) : Prop :=
  forall t, In t (timeouts (window st)) ->
    fireAt t <= clock (window st) + autoHideDelayMs.

(** A raised [rafPending] flag has its callback queued. *)
Definition flagHasCallback (st : State) : Prop :=
  rafPending st = true -> animationFrameCallbacks (window st) <> 0%nat.

(** The state of the variant without the timer that a state of the
    controller corresponds to. *)
Definition withoutTimer (st : State) : FixedThreshold.State :=
  FixedThreshold.mkState (window st) (document st) (lastScrollY st) (rafPending st).

(** The controller with another "back to top" button in its document. *)
Definition set_backToTopButton (b : Element) (st : State) : State :=
  set_document (mkDom (tocContainer (document st)) (Some b)) st.

(** The two scripts that share [#back-to-top], one after the other: the
    button after the controller applied a decision and the visibility
    script then ran on it, and the other way round. *)
Definition controllerThenScript (isHidden : bool) (st : State)
    (bt : BackToTop.State) : option Element :=
  match backToTopButton (document (setScrollDirectionHidden isHidden st)) with
  | Some b => Some (BackToTop.button
                      (BackToTop.updateVisibility (BackToTop.set_button b bt)))
  | None => None
  end.

Definition scriptThenController (isHidden : bool) (st : State)
    (bt : BackToTop.State) : option Element :=
  backToTopButton
    (document
       (setScrollDirectionHidden isHidden
          (set_backToTopButton
             (BackToTop.button (BackToTop.updateVisibility bt)) st))).

(** Phone at 900 px, shown, baseline 950: an upward scroll of 50 px has
    been delivered and the frame has not run. *)
Definition scrolledUpAt900 : State :=
  mkState (mkWindow 900 700 500 true 0 [] 1 1 allListeners)
          (elements false false) 950 true 420 None.

(** Functions that neither read nor write the flag and the queue. *)
Definition sameFrameFlag (st st' : State) : Prop :=
  rafPending st' = rafPending st /\
  animationFrameCallbacks (window st') = animationFrameCallbacks (window st).

(** Phone, both elements hidden at 900 px, then turned so that the
    viewport is 2000 px high; the resize event has not been delivered. *)
Definition tallPhoneHiddenAt900 : State :=
  mkState (mkWindow 900 2000 500 true 0 [] 1 0 allListeners)
          (elements true false) 900 false 420 None.

(** Phone, both elements hidden at 424 px, then scrolled back to 100 px;
    the scroll event has not been delivered. *)
Definition hiddenNearTop : State :=
  mkState (mkWindow 100 700 500 true 0 [] 1 0 allListeners)
          (elements true false) 424 false 420 None.

(** Phone, loaded at the top and scrolled down to 300 px, between 50 px
    and the threshold of 420 px; the frame has not run. *)
Definition scrolledInBand : State :=
  mkState (mkWindow 300 700 500 true 0 [] 1 1 allListeners)
          (elements false false) 0 true 420 None.

(** * Proofs *)

(** ** Class lists *)

Module ClassListFacts.
Import ClassList.

Lemma contains_app c l1 l2 :
  contains c (l1 ++ l2) = contains c l1 || contains c l2.
Proof. unfold contains. apply existsb_app. Qed.

Lemma contains_add c l : contains c (add c l) = true.
Proof.
  unfold add. destruct (contains c l) eqn:E; [exact E|].
  rewrite contains_app. cbn. rewrite String.eqb_refl. now rewrite orb_true_r.
Qed.

Lemma contains_remove c l : contains c (remove c l) = false.
Proof.
  unfold contains, remove. induction l as [|x l IH]; cbn; [reflexivity|].
  destruct (String.eqb c x) eqn:E; cbn; [exact IH|]. now rewrite E.
Qed.

Lemma contains_toggle c force l : contains c (toggle c force l) = force.
Proof. destruct force; [apply contains_add | apply contains_remove]. Qed.

Lemma add_present c l : contains c l = true -> add c l = l.
Proof. unfold add. now intros ->. Qed.

Lemma remove_absent c l : contains c l = false -> remove c l = l.
Proof.
  unfold contains, remove. induction l as [|x l IH]; cbn; [reflexivity|].
  destruct (String.eqb c x); cbn; [discriminate|]. intros H. now rewrite IH.
Qed.

(** Toggling towards the state the list is already in changes nothing. *)
Lemma toggle_settled c force l : contains c l = force -> toggle c force l = l.
Proof. destruct force; [apply add_present | apply remove_absent]. Qed.

Lemma toggle_idempotent c force l :
  toggle c force (toggle c force l) = toggle c force l.
Proof. apply toggle_settled, contains_toggle. Qed.

(** Other classes of the element are left alone. *)
Lemma contains_toggle_other c d force l :
  c <> d -> contains d (toggle c force l) = contains d l.
Proof.
  intros Hne. destruct force; unfold toggle.
  - unfold add. destruct (contains c l); [reflexivity|].
    rewrite contains_app. unfold contains at 2. cbn.
    destruct (String.eqb_spec d c); [congruence|]. now rewrite !orb_false_r.
  - unfold contains, remove. induction l as [|x l IH]; cbn; [reflexivity|].
    destruct (String.eqb_spec c x) as [->|Hx]; cbn.
    + destruct (String.eqb_spec d x); [congruence|]. exact IH.
    + now rewrite IH.
Qed.

End ClassListFacts.

(** ** What each function of the script touches *)

Arguments ClassList.toggle : simpl never.
Arguments ClassList.contains : simpl never.
Arguments hideAfterPixels : simpl never.
Arguments clearAutoHideTimer : simpl never.
Arguments scheduleAutoHide : simpl never.
Arguments setScrollDirectionHidden : simpl never.
Arguments autoHide : simpl never.
Arguments update : simpl never.

Lemma clearAutoHideTimer_eq st :
  clearAutoHideTimer st =
  set_autoHideTimeoutId None
    (set_window (set_timeouts (pendingAfterClear st) (window st)) st).
Proof.
  destruct st as [[] d y r p [h|]]; reflexivity.
Qed.

Lemma scheduleAutoHide_eq st :
  scheduleAutoHide st =
  if autoHideConditions st then armed st else clearAutoHideTimer st.
Proof.
  unfold scheduleAutoHide, autoHideConditions.
  rewrite clearAutoHideTimer_eq. cbn.
  change (isMobileViewport (set_timeouts (pendingAfterClear st) (window st)))
    with (isMobileViewport (window st)).
  destruct (isMobileViewport (window st)); cbn; [|reflexivity].
  rewrite Z.leb_antisym.
  destruct (scrollY (window st) <? enableHideAfterPixels st); cbn; [reflexivity|].
  change (tocDetailsOpen (set_autoHideTimeoutId None
            (set_window (set_timeouts (pendingAfterClear st) (window st)) st)))
    with (tocDetailsOpen st).
  destruct (tocDetailsOpen st); reflexivity.
Qed.

Lemma setScrollDirectionHidden_eq isHidden st :
  setScrollDirectionHidden isHidden st =
  if isHidden
  then clearAutoHideTimer (set_document (toggled isHidden st) st)
  else scheduleAutoHide (set_document (toggled isHidden st) st).
Proof.
  unfold setScrollDirectionHidden, toggled. destruct isHidden; reflexivity.
Qed.

(** Toggling the class leaves the disclosure and the presence of the
    elements as they were. *)
Lemma tocDetailsOpen_toggled isHidden st :
  tocDetailsOpen (set_document (toggled isHidden st) st) = tocDetailsOpen st.
Proof.
  unfold tocDetailsOpen, tocDetails, toggled. cbn.
  destruct (tocContainer (document st)); reflexivity.
Qed.

Lemma autoHideConditions_toggled isHidden st :
  autoHideConditions (set_document (toggled isHidden st) st) = autoHideConditions st.
Proof.
  unfold autoHideConditions. now rewrite tocDetailsOpen_toggled.
Qed.

Lemma autoHide_eq st :
  autoHide st = if autoHideConditions st then setScrollDirectionHidden true st else st.
Proof.
  unfold autoHide, autoHideConditions.
  destruct (isMobileViewport (window st)); cbn; [|reflexivity].
  rewrite Z.leb_antisym.
  destruct (scrollY (window st) <? enableHideAfterPixels st); cbn; [reflexivity|].
  destruct (tocDetailsOpen st); reflexivity.
Qed.

(** The four shapes of the state after [setScrollDirectionHidden]. *)
Lemma setScrollDirectionHidden_document isHidden st :
  document (setScrollDirectionHidden isHidden st) = toggled isHidden st.
Proof.
  rewrite setScrollDirectionHidden_eq. destruct isHidden.
  - now rewrite clearAutoHideTimer_eq.
  - rewrite scheduleAutoHide_eq.
    destruct (autoHideConditions _); [reflexivity | now rewrite clearAutoHideTimer_eq].
Qed.

Lemma steady_refl st : steady st st.
Proof. constructor; reflexivity. Qed.

Lemma steady_trans st1 st2 st3 : steady st1 st2 -> steady st2 st3 -> steady st1 st3.
Proof.
  intros [] []. constructor; try congruence; etransitivity; eassumption.
Qed.

Lemma steady_isMobileViewport st st' :
  steady st st' -> isMobileViewport (window st') = isMobileViewport (window st).
Proof.
  intros []. unfold isMobileViewport, matchesMaxWidth899. congruence.
Qed.

Lemma steady_tocDetailsOpen st st' :
  steady st st' -> tocDetailsOpen st' = tocDetailsOpen st.
Proof. intros H. unfold tocDetailsOpen. now rewrite (steady_details _ _ H). Qed.

Lemma steady_autoHideConditions st st' :
  steady st st' -> autoHideConditions st' = autoHideConditions st.
Proof.
  intros H. unfold autoHideConditions.
  rewrite (steady_isMobileViewport _ _ H), (steady_tocDetailsOpen _ _ H).
  destruct H. congruence.
Qed.

Lemma steady_clearAutoHideTimer st : steady st (clearAutoHideTimer st).
Proof. rewrite clearAutoHideTimer_eq. constructor; reflexivity. Qed.

Lemma steady_scheduleAutoHide st : steady st (scheduleAutoHide st).
Proof.
  rewrite scheduleAutoHide_eq. destruct (autoHideConditions st).
  - constructor; reflexivity.
  - apply steady_clearAutoHideTimer.
Qed.

Lemma steady_toggled isHidden st : steady st (set_document (toggled isHidden st) st).
Proof.
  constructor; try reflexivity; unfold toggled, tocDetails; cbn.
  - destruct (tocContainer (document st)); reflexivity.
  - destruct (tocContainer (document st)); split; intros E; first [discriminate E | reflexivity].
  - destruct (backToTopButton (document st)); split; intros E; first [discriminate E | reflexivity].
Qed.

Lemma steady_setScrollDirectionHidden isHidden st :
  steady st (setScrollDirectionHidden isHidden st).
Proof.
  rewrite setScrollDirectionHidden_eq.
  eapply steady_trans; [apply steady_toggled|].
  destruct isHidden; [apply steady_clearAutoHideTimer | apply steady_scheduleAutoHide].
Qed.

Lemma steady_autoHide st : steady st (autoHide st).
Proof.
  rewrite autoHide_eq. destruct (autoHideConditions st);
    [apply steady_setScrollDirectionHidden | apply steady_refl].
Qed.

Lemma steady_set_lastScrollY y st : steady st (set_lastScrollY y st).
Proof. constructor; reflexivity. Qed.

Lemma steady_set_rafPending b st : steady st (set_rafPending b st).
Proof. constructor; reflexivity. Qed.

(** [update], branch by branch. *)
Lemma update_eq st :
  update st =
  let st0 := set_rafPending false st in
  if negb (isMobileViewport (window st)) then
    set_lastScrollY (scrollY (window st)) (setScrollDirectionHidden false st0)
  else if Z.abs (scrollY (window st) - lastScrollY st) <? minDelta then st0
  else
    set_lastScrollY (scrollY (window st))
      (setScrollDirectionHidden
         (negb (scrollY (window st) <? enableHideAfterPixels st)
          && (0 <? scrollY (window st) - lastScrollY st)) st0).
Proof.
  unfold update. cbn.
  destruct (isMobileViewport (window st)); cbn.
  - destruct (Z.abs _ <? minDelta); [reflexivity|].
    destruct (scrollY (window st) <? enableHideAfterPixels st); reflexivity.
  - now rewrite (steady_scrollY _ _ (steady_setScrollDirectionHidden false _)).
Qed.

Lemma steady_update st : steady st (update st).
Proof.
  rewrite update_eq. cbn.
  destruct (isMobileViewport (window st)); cbn.
  - destruct (Z.abs _ <? minDelta); [apply steady_set_rafPending|].
    eapply steady_trans; [apply steady_set_rafPending|].
    eapply steady_trans; [apply steady_setScrollDirectionHidden|].
    apply steady_set_lastScrollY.
  - eapply steady_trans; [apply steady_set_rafPending|].
    eapply steady_trans; [apply steady_setScrollDirectionHidden|].
    apply steady_set_lastScrollY.
Qed.

Lemma steady_onScroll st : steady st (onScroll st).
Proof.
  unfold onScroll. destruct (rafPending st); [apply steady_refl|].
  constructor; reflexivity.
Qed.

Lemma steady_onToggle st : steady st (onToggle st).
Proof.
  unfold onToggle. destruct (tocDetailsOpen st); [|apply steady_scheduleAutoHide].
  eapply steady_trans; [apply steady_setScrollDirectionHidden|].
  eapply steady_trans; [apply steady_set_lastScrollY|].
  apply steady_clearAutoHideTimer.
Qed.

(** The closure variables other than the timer handle are out of reach of
    [setScrollDirectionHidden]. *)
Lemma setScrollDirectionHidden_set_lastScrollY isHidden y st :
  setScrollDirectionHidden isHidden (set_lastScrollY y st) =
  set_lastScrollY y (setScrollDirectionHidden isHidden st).
Proof.
  rewrite !setScrollDirectionHidden_eq, !scheduleAutoHide_eq, !clearAutoHideTimer_eq.
  change (autoHideConditions (set_document (toggled isHidden (set_lastScrollY y st))
                                (set_lastScrollY y st)))
    with (autoHideConditions (set_document (toggled isHidden st) st)).
  destruct isHidden; [reflexivity|].
  destruct (autoHideConditions _); reflexivity.
Qed.

Lemma rafPending_setScrollDirectionHidden isHidden st :
  rafPending (setScrollDirectionHidden isHidden st) = rafPending st.
Proof.
  rewrite setScrollDirectionHidden_eq, !scheduleAutoHide_eq, !clearAutoHideTimer_eq.
  destruct isHidden; [reflexivity|].
  destruct (autoHideConditions _); reflexivity.
Qed.

Lemma set_rafPending_settled b st : rafPending st = b -> set_rafPending b st = st.
Proof. destruct st. cbn. now intros ->. Qed.

Lemma rafPending_update st : rafPending (update st) = false.
Proof.
  rewrite update_eq. cbn zeta.
  destruct (negb _); [cbn; now rewrite rafPending_setScrollDirectionHidden|].
  destruct (_ <? minDelta); [reflexivity|].
  cbn. now rewrite rafPending_setScrollDirectionHidden.
Qed.

(** Showing twice is showing once where no timer gets armed. *)
Lemma setScrollDirectionHidden_false_twice st :
  autoHideConditions st = false ->
  setScrollDirectionHidden false (setScrollDirectionHidden false st) =
  setScrollDirectionHidden false st.
Proof.
  intros C.
  assert (C1 : autoHideConditions (setScrollDirectionHidden false st) = false)
    by now rewrite (steady_autoHideConditions _ _ (steady_setScrollDirectionHidden false st)).
  rewrite (setScrollDirectionHidden_eq false (setScrollDirectionHidden false st)).
  rewrite scheduleAutoHide_eq, autoHideConditions_toggled, C1.
  rewrite (setScrollDirectionHidden_eq false st) in *.
  rewrite scheduleAutoHide_eq, autoHideConditions_toggled, C in *.
  rewrite !clearAutoHideTimer_eq.
  unfold toggled, tocDetailsOpen, tocDetails, pendingAfterClear. cbn.
  destruct st as [w [[toc|] [btt|]] y r p i]; cbn;
    rewrite ?ClassListFacts.toggle_idempotent; reflexivity.
Qed.

Lemma desktop_no_autoHideConditions st :
  isMobileViewport (window st) = false -> autoHideConditions st = false.
Proof. unfold autoHideConditions. now intros ->. Qed.

Lemma update_twice st : update (update st) = update st.
Proof.
  rewrite (update_eq (update st)). cbn zeta.
  rewrite (set_rafPending_settled false (update st)) by apply rafPending_update.
  rewrite (steady_isMobileViewport _ _ (steady_update st)).
  rewrite (steady_scrollY _ _ (steady_update st)).
  destruct (isMobileViewport (window st)) eqn:M; cbn [negb].
  - replace (lastScrollY (update st)) with
      (if Z.abs (scrollY (window st) - lastScrollY st) <? minDelta
       then lastScrollY st else scrollY (window st)).
    + destruct (Z.abs (scrollY (window st) - lastScrollY st) <? minDelta) eqn:J.
      * now rewrite J.
      * rewrite Z.sub_diag. reflexivity.
    + rewrite update_eq. cbn zeta. rewrite M. cbn [negb].
      destruct (_ <? minDelta); reflexivity.
  - rewrite update_eq. cbn zeta. rewrite M. cbn [negb].
    rewrite setScrollDirectionHidden_set_lastScrollY.
    rewrite setScrollDirectionHidden_false_twice
      by (apply desktop_no_autoHideConditions; exact M).
    reflexivity.
Qed.

(** ** The timer table *)

Lemma pendingAfterClear_nil st : atMostOnePending st -> pendingAfterClear st = [].
Proof.
  unfold atMostOnePending, pendingAfterClear. intros [Hlen Hid].
  destruct (timeouts (window st)) as [|t [|t' ts]] eqn:E.
  - now destruct (autoHideTimeoutId st).
  - rewrite (Hid t (or_introl eq_refl)). cbn. now rewrite Z.eqb_refl.
  - cbn in Hlen. lia.
Qed.

Lemma timerState_clearAutoHideTimer st :
  atMostOnePending st -> timerState (clearAutoHideTimer st) = disarmedTimer st.
Proof.
  intros H. rewrite clearAutoHideTimer_eq. unfold timerState, disarmedTimer. cbn.
  now rewrite pendingAfterClear_nil.
Qed.

Lemma timerState_scheduleAutoHide st :
  atMostOnePending st ->
  timerState (scheduleAutoHide st) =
  if autoHideConditions st then armedTimer st else disarmedTimer st.
Proof.
  intros H. rewrite scheduleAutoHide_eq.
  destruct (autoHideConditions st); [|now apply timerState_clearAutoHideTimer].
  unfold timerState, armedTimer, armed. cbn. now rewrite pendingAfterClear_nil.
Qed.

Lemma atMostOnePending_timerState st st' :
  timerState st' = timerState st -> atMostOnePending st -> atMostOnePending st'.
Proof.
  unfold timerState, atMostOnePending. intros E. injection E as -> _ ->. tauto.
Qed.

Lemma timerState_toggled isHidden st :
  timerState (set_document (toggled isHidden st) st) = timerState st.
Proof. reflexivity. Qed.

Lemma timerState_setScrollDirectionHidden isHidden st :
  atMostOnePending st ->
  timerState (setScrollDirectionHidden isHidden st) =
  if negb isHidden && autoHideConditions st then armedTimer st else disarmedTimer st.
Proof.
  intros H. rewrite setScrollDirectionHidden_eq.
  pose proof (atMostOnePending_timerState _ _ (timerState_toggled isHidden st) H) as H'.
  destruct isHidden; cbn [negb andb].
  - now rewrite timerState_clearAutoHideTimer.
  - rewrite timerState_scheduleAutoHide, autoHideConditions_toggled by assumption.
    reflexivity.
Qed.

Lemma atMostOnePending_disarmed st st' :
  timerState st' = disarmedTimer st -> atMostOnePending st'.
Proof.
  unfold timerState, disarmedTimer, atMostOnePending. intros E.
  injection E as -> _ _. cbn. split; [lia | tauto].
Qed.

Lemma atMostOnePending_armed st st' :
  timerState st' = armedTimer st -> atMostOnePending st'.
Proof.
  unfold timerState, armedTimer, atMostOnePending. intros E.
  injection E as -> _ ->. cbn. split; [lia|]. intros t [<-|[]]. reflexivity.
Qed.

Lemma atMostOnePending_either (b : bool) st st' :
  timerState st' = (if b then armedTimer st else disarmedTimer st) ->
  atMostOnePending st'.
Proof.
  destruct b; [apply atMostOnePending_armed | apply atMostOnePending_disarmed].
Qed.

Lemma atMostOnePending_clearAutoHideTimer st :
  atMostOnePending st -> atMostOnePending (clearAutoHideTimer st).
Proof.
  intros H. eapply atMostOnePending_disarmed, timerState_clearAutoHideTimer, H.
Qed.

Lemma atMostOnePending_scheduleAutoHide st :
  atMostOnePending st -> atMostOnePending (scheduleAutoHide st).
Proof.
  intros H. eapply atMostOnePending_either, timerState_scheduleAutoHide, H.
Qed.

Lemma atMostOnePending_setScrollDirectionHidden isHidden st :
  atMostOnePending st -> atMostOnePending (setScrollDirectionHidden isHidden st).
Proof.
  intros H. eapply atMostOnePending_either, timerState_setScrollDirectionHidden, H.
Qed.

Lemma atMostOnePending_autoHide st :
  atMostOnePending st -> atMostOnePending (autoHide st).
Proof.
  intros H. rewrite autoHide_eq. destruct (autoHideConditions st); [|exact H].
  now apply atMostOnePending_setScrollDirectionHidden.
Qed.

Lemma atMostOnePending_update st :
  atMostOnePending st -> atMostOnePending (update st).
Proof.
  intros H. rewrite update_eq. cbn zeta.
  assert (H0 : atMostOnePending (set_rafPending false st)) by exact H.
  destruct (negb _).
  - exact (atMostOnePending_setScrollDirectionHidden false _ H0).
  - destruct (_ <? minDelta); [exact H0|].
    exact (atMostOnePending_setScrollDirectionHidden _ _ H0).
Qed.

Lemma atMostOnePending_onScroll st :
  atMostOnePending st -> atMostOnePending (onScroll st).
Proof. unfold onScroll. destruct (rafPending st); intros H; exact H. Qed.

Lemma atMostOnePending_onResize st :
  atMostOnePending st -> atMostOnePending (onResize st).
Proof. intros H. unfold onResize. apply atMostOnePending_update. exact H. Qed.

Lemma atMostOnePending_onToggle st :
  atMostOnePending st -> atMostOnePending (onToggle st).
Proof.
  intros H. unfold onToggle. destruct (tocDetailsOpen st).
  - apply atMostOnePending_clearAutoHideTimer.
    exact (atMostOnePending_setScrollDirectionHidden false _ H).
  - now apply atMostOnePending_scheduleAutoHide.
Qed.

Lemma atMostOnePending_runCallback cb st :
  atMostOnePending st -> atMostOnePending (runCallback cb st).
Proof.
  destruct cb; cbn [runCallback].
  - apply atMostOnePending_onScroll.
  - apply atMostOnePending_scheduleAutoHide.
  - apply atMostOnePending_onResize.
  - apply atMostOnePending_onToggle.
Qed.

Lemma atMostOnePending_dispatch e st :
  atMostOnePending st -> atMostOnePending (dispatch e st).
Proof.
  unfold dispatch. generalize (listeners (window st)) as ls.
  intros ls. revert st. induction ls as [|l ls IH]; intros st H; cbn; [exact H|].
  apply IH. destruct (DomEvent_eqb (fst l) e); [|exact H].
  now apply atMostOnePending_runCallback.
Qed.

Lemma atMostOnePending_iter_update n st :
  atMostOnePending st -> atMostOnePending (Nat.iter n update st).
Proof.
  intros H. induction n as [|n IH]; cbn; [exact H|].
  now apply atMostOnePending_update.
Qed.

Lemma atMostOnePending_clearTimeout h st :
  atMostOnePending st ->
  atMostOnePending (set_window (clearTimeout h (window st)) st).
Proof.
  unfold atMostOnePending. cbn. intros [Hlen Hid]. split.
  - etransitivity; [apply filter_length_le | exact Hlen].
  - intros t Ht. apply Hid. apply filter_In in Ht. tauto.
Qed.

Lemma atMostOnePending_step e st st' :
  step e st = Some st' -> atMostOnePending st -> atMostOnePending st'.
Proof.
  destruct e; cbn [step]; intros E H.
  - injection E as <-. exact H.
  - injection E as <-. exact H.
  - destruct (setOpen b (document st)); [|discriminate]. injection E as <-. exact H.
  - destruct (0 <=? ms); [|discriminate]. injection E as <-. exact H.
  - injection E as <-. now apply atMostOnePending_dispatch.
  - injection E as <-. apply atMostOnePending_iter_update. exact H.
  - destruct (find _ _); [|discriminate].
    destruct (_ <=? _); [|discriminate]. injection E as <-.
    apply atMostOnePending_autoHide. now apply atMostOnePending_clearTimeout.
Qed.

Lemma atMostOnePending_wired p st :
  pristine p -> DOMContentLoaded p = Controller st -> atMostOnePending st.
Proof.
  intros (Ht & _ & _) E. unfold DOMContentLoaded in E.
  set (st0 := update _) in E.
  assert (H0 : atMostOnePending st0).
  { apply atMostOnePending_update. unfold atMostOnePending. cbn.
    rewrite Ht. cbn. split; [lia | tauto]. }
  destruct (tocContainer (pageDocument p)), (backToTopButton (pageDocument p));
    try discriminate;
    destruct (tocDetails (pageDocument p)); injection E as <-; exact H0.
Qed.

Lemma reachable_atMostOnePending st : reachable st -> atMostOnePending st.
Proof.
  induction 1 as [p st Hp E | e st st' _ IH E].
  - eapply atMostOnePending_wired; eassumption.
  - eapply atMostOnePending_step; eassumption.
Qed.

(** ** The listener table *)

Lemma listenersWired_steady st st' :
  steady st st' -> listenersWired st -> listenersWired st'.
Proof.
  unfold listenersWired, registered. intros H E.
  now rewrite (steady_listeners _ _ H), (steady_details _ _ H).
Qed.

Lemma listenersWired_onResize st : listenersWired st -> listenersWired (onResize st).
Proof.
  intros H. unfold onResize. eapply listenersWired_steady; [apply steady_update|].
  exact H.
Qed.

Lemma listenersWired_runCallback cb st :
  listenersWired st -> listenersWired (runCallback cb st).
Proof.
  destruct cb; cbn [runCallback].
  - apply listenersWired_steady, steady_onScroll.
  - apply listenersWired_steady, steady_scheduleAutoHide.
  - apply listenersWired_onResize.
  - apply listenersWired_steady, steady_onToggle.
Qed.

(** With the listeners of the script in place, an event runs the one
    function registered for it. *)
Lemma dispatch_wired e st :
  listenersWired st ->
  dispatch e st =
  match e with
  | Scroll => onScroll st
  | Touchstart | Click => scheduleAutoHide st
  | Resize => onResize st
  | Toggle => match tocDetails (document st) with
              | Some _ => onToggle st
              | None => st
              end
  end.
Proof.
  unfold listenersWired, dispatch, registered. intros ->.
  destruct (tocDetails (document st)); destruct e; reflexivity.
Qed.

Lemma listenersWired_dispatch e st : listenersWired st -> listenersWired (dispatch e st).
Proof.
  intros H. rewrite dispatch_wired by exact H.
  destruct e; try destruct (tocDetails (document st));
    first [ exact H
          | apply (listenersWired_runCallback CbOnScroll), H
          | apply (listenersWired_runCallback CbScheduleAutoHide), H
          | apply (listenersWired_runCallback CbResize), H
          | apply (listenersWired_runCallback CbToggle), H ].
Qed.

Lemma steady_iter_update n st : steady st (Nat.iter n update st).
Proof.
  induction n as [|n IH]; cbn; [apply steady_refl|].
  eapply steady_trans; [exact IH | apply steady_update].
Qed.

Lemma setOpen_inv b d d' :
  setOpen b d = Some d' ->
  exists toc c,
    tocContainer d = Some toc /\ tocChild toc = Some c /\
    d' = mkDom (Some (mkToc (tocClassList toc) (Some (mkDetails b))))
               (backToTopButton d).
Proof.
  unfold setOpen.
  destruct (tocContainer d) as [toc|]; [|discriminate].
  destruct (tocChild toc) as [c|] eqn:Ec; [|discriminate].
  intros E. injection E as <-. eauto.
Qed.

Lemma listenersWired_step e st st' :
  step e st = Some st' -> listenersWired st -> listenersWired st'.
Proof.
  destruct e; cbn [step]; intros E H.
  - injection E as <-. exact H.
  - injection E as <-. exact H.
  - destruct (setOpen b (document st)) as [d'|] eqn:Eo; [|discriminate].
    injection E as <-. apply setOpen_inv in Eo as (toc & c & Et & Ec & ->).
    unfold listenersWired, registered, tocDetails in *. cbn.
    rewrite H, Et, Ec. reflexivity.
  - destruct (0 <=? ms); [|discriminate]. injection E as <-. exact H.
  - injection E as <-. now apply listenersWired_dispatch.
  - injection E as <-. eapply listenersWired_steady; [apply steady_iter_update|].
    exact H.
  - destruct (find _ _); [|discriminate].
    destruct (_ <=? _); [|discriminate]. injection E as <-.
    eapply listenersWired_steady; [apply steady_autoHide|]. exact H.
Qed.

Lemma listenersWired_wired p st :
  pristine p -> DOMContentLoaded p = Controller st -> listenersWired st.
Proof.
  intros (_ & _ & Hl) E. unfold DOMContentLoaded in E.
  set (st0 := update _) in E.
  assert (H0 : listeners (window st0) =
               [(Scroll, CbOnScroll); (Touchstart, CbScheduleAutoHide);
                (Click, CbScheduleAutoHide); (Resize, CbResize)]
               /\ tocDetails (document st0) = tocDetails (pageDocument p)).
  { unfold st0.
    rewrite (steady_listeners _ _ (steady_update _)), (steady_details _ _ (steady_update _)).
    cbn. rewrite Hl. split; reflexivity. }
  destruct H0 as [H1 H2]. unfold listenersWired, registered.
  destruct (tocContainer (pageDocument p)), (backToTopButton (pageDocument p));
    try discriminate;
    destruct (tocDetails (pageDocument p)) eqn:Ed; injection E as <-; cbn;
    rewrite ?H1, ?H2; cbn; try rewrite H2; reflexivity.
Qed.

Lemma reachable_listenersWired st : reachable st -> listenersWired st.
Proof.
  induction 1 as [p st Hp E | e st st' _ IH E].
  - eapply listenersWired_wired; eassumption.
  - eapply listenersWired_step; eassumption.
Qed.

(** ** Classes after each function *)

Lemma document_clearAutoHideTimer st : document (clearAutoHideTimer st) = document st.
Proof. now rewrite clearAutoHideTimer_eq. Qed.

Lemma document_scheduleAutoHide st : document (scheduleAutoHide st) = document st.
Proof.
  rewrite scheduleAutoHide_eq. destruct (autoHideConditions st);
    [reflexivity | apply document_clearAutoHideTimer].
Qed.

Lemma tocHidden_setScrollDirectionHidden isHidden st :
  tocHidden (setScrollDirectionHidden isHidden st) =
  match tocContainer (document st) with
  | Some _ => isHidden && negb (tocDetailsOpen st)
  | None => false
  end.
Proof.
  unfold tocHidden. rewrite setScrollDirectionHidden_document. unfold toggled. cbn.
  destruct (tocContainer (document st)); [|reflexivity].
  apply ClassListFacts.contains_toggle.
Qed.

Lemma backToTopHidden_setScrollDirectionHidden isHidden st :
  backToTopHidden (setScrollDirectionHidden isHidden st) =
  match backToTopButton (document st) with
  | Some _ => isHidden
  | None => false
  end.
Proof.
  unfold backToTopHidden. rewrite setScrollDirectionHidden_document. unfold toggled. cbn.
  destruct (backToTopButton (document st)); [|reflexivity].
  apply ClassListFacts.contains_toggle.
Qed.

Lemma tocHidden_open_setScrollDirectionHidden isHidden st :
  tocDetailsOpen st = true -> tocHidden (setScrollDirectionHidden isHidden st) = false.
Proof.
  intros O. rewrite tocHidden_setScrollDirectionHidden, O.
  destruct (tocContainer (document st)); [apply andb_false_r | reflexivity].
Qed.

(** Applying a decision the document already shows leaves it as it is. *)
Lemma toggled_settled isHidden st :
  tocHidden st = isHidden && negb (tocDetailsOpen st) ->
  backToTopHidden st = isHidden ->
  toggled isHidden st = document st.
Proof.
  unfold tocHidden, backToTopHidden, hasHiddenClass, toggled. intros Ht Hb.
  destruct (document st) as [[[tl tc]|] [[bl]|]]; cbn in *;
    rewrite ?(ClassListFacts.toggle_settled _ _ _ Ht),
            ?(ClassListFacts.toggle_settled _ _ _ Hb); reflexivity.
Qed.

Lemma autoHide_open st : tocDetailsOpen st = true -> autoHide st = st.
Proof.
  intros O. rewrite autoHide_eq. unfold autoHideConditions. rewrite O.
  now rewrite andb_false_r.
Qed.

(** While the disclosure is open an evaluation never puts the class on
    the TOC container. *)
Lemma tocHidden_open_update st :
  tocDetailsOpen st = true -> tocHidden (update st) = true -> tocHidden st = true.
Proof.
  intros O. rewrite update_eq. cbn zeta.
  assert (O0 : tocDetailsOpen (set_rafPending false st) = true) by exact O.
  destruct (negb _).
  - unfold tocHidden at 1. cbn [document set_lastScrollY]. fold (tocHidden (setScrollDirectionHidden false (set_rafPending false st))).
    rewrite tocHidden_open_setScrollDirectionHidden by exact O0. discriminate.
  - destruct (_ <? minDelta); [trivial|].
    unfold tocHidden at 1. cbn [document set_lastScrollY].
    match goal with |- context [setScrollDirectionHidden ?b ?s] =>
      fold (tocHidden (setScrollDirectionHidden b s));
      rewrite (tocHidden_open_setScrollDirectionHidden b s O0) end.
    discriminate.
Qed.

Lemma tocHidden_open_iter_update n st :
  tocDetailsOpen st = true ->
  tocHidden (Nat.iter n update st) = true -> tocHidden st = true.
Proof.
  intros O. induction n as [|n IH]; cbn; [trivial|]. intros H. apply IH.
  apply tocHidden_open_update; [|exact H].
  now rewrite (steady_tocDetailsOpen _ _ (steady_iter_update n st)).
Qed.

Lemma tocHidden_onToggle_open st :
  tocDetailsOpen st = true -> tocHidden (onToggle st) = false.
Proof.
  intros O. unfold onToggle. rewrite O. unfold tocHidden.
  rewrite document_clearAutoHideTimer. cbn [document set_lastScrollY].
  exact (tocHidden_open_setScrollDirectionHidden false st O).
Qed.

Lemma tocDetailsOpen_present st :
  tocDetailsOpen st = true -> tocDetails (document st) <> None.
Proof. unfold tocDetailsOpen. destruct (tocDetails (document st)); congruence. Qed.

Lemma tocHidden_same_document st st' :
  document st' = document st -> tocHidden st' = tocHidden st.
Proof. unfold tocHidden. now intros ->. Qed.

Lemma backToTopHidden_same_document st st' :
  document st' = document st -> backToTopHidden st' = backToTopHidden st.
Proof. unfold backToTopHidden. now intros ->. Qed.

(** No step of the event loop puts the class on the TOC container of an
    open disclosure. *)
Lemma step_open_never_hides_toc e st st' :
  listenersWired st -> step e st = Some st' ->
  tocDetailsOpen st' = true -> tocHidden st' = true -> tocHidden st = true.
Proof.
  intros L E O'.
  destruct e; cbn [step] in E.
  - injection E as <-. trivial.
  - injection E as <-. trivial.
  - destruct (setOpen b (document st)) as [d'|] eqn:Eo; [|discriminate].
    injection E as <-. apply setOpen_inv in Eo as (toc & c & Et & Ec & ->).
    unfold tocHidden. cbn. rewrite Et. trivial.
  - destruct (0 <=? ms); [|discriminate]. injection E as <-. trivial.
  - injection E as <-. rewrite dispatch_wired in * by exact L.
    destruct e.
    + rewrite (steady_tocDetailsOpen _ _ (steady_onScroll st)) in O'.
      unfold onScroll. destruct (rafPending st); trivial.
    + now rewrite (tocHidden_same_document _ _ (document_scheduleAutoHide st)).
    + now rewrite (tocHidden_same_document _ _ (document_scheduleAutoHide st)).
    + unfold onResize in *.
      rewrite (steady_tocDetailsOpen _ _ (steady_update _)) in O'.
      intros H. exact (tocHidden_open_update _ O' H).
    + destruct (tocDetails (document st)); [|trivial].
      rewrite (steady_tocDetailsOpen _ _ (steady_onToggle st)) in O'.
      rewrite tocHidden_onToggle_open by exact O'. discriminate.
  - injection E as <-.
    rewrite (steady_tocDetailsOpen _ _ (steady_iter_update _ _)) in O'.
    intros H. exact (tocHidden_open_iter_update _ _ O' H).
  - destruct (find _ _); [|discriminate].
    destruct (_ <=? _); [|discriminate]. injection E as <-.
    rewrite (steady_tocDetailsOpen _ _ (steady_autoHide _)) in O'.
    rewrite autoHide_open by exact O'. trivial.
Qed.

(** ** When [setTimeout] is called *)

Lemma nextTimeoutHandle_clearAutoHideTimer st :
  nextTimeoutHandle (window (clearAutoHideTimer st)) = nextTimeoutHandle (window st).
Proof. now rewrite clearAutoHideTimer_eq. Qed.

Lemma nextTimeoutHandle_scheduleAutoHide st :
  nextTimeoutHandle (window (scheduleAutoHide st)) =
  if autoHideConditions st
  then nextTimeoutHandle (window st) + 1
  else nextTimeoutHandle (window st).
Proof.
  rewrite scheduleAutoHide_eq. destruct (autoHideConditions st);
    [reflexivity | apply nextTimeoutHandle_clearAutoHideTimer].
Qed.

Lemma nextTimeoutHandle_setScrollDirectionHidden isHidden st :
  nextTimeoutHandle (window (setScrollDirectionHidden isHidden st)) =
  if negb isHidden && autoHideConditions st
  then nextTimeoutHandle (window st) + 1
  else nextTimeoutHandle (window st).
Proof.
  rewrite setScrollDirectionHidden_eq. destruct isHidden; cbn [negb andb].
  - now rewrite nextTimeoutHandle_clearAutoHideTimer.
  - now rewrite nextTimeoutHandle_scheduleAutoHide, autoHideConditions_toggled.
Qed.

Lemma armsOnlyWhen_refl st : armsOnlyWhen st st.
Proof. now left. Qed.

Lemma armsOnlyWhen_trans st1 st2 st3 :
  armsOnlyWhen st1 st2 -> armsOnlyWhen st2 st3 -> steady st2 st3 ->
  armsOnlyWhen st1 st3.
Proof.
  unfold armsOnlyWhen. intros [E1|C1] [E2|C2] S; auto.
  - left. congruence.
  - right. now rewrite (steady_autoHideConditions _ _ S).
Qed.

Lemma armsOnlyWhen_clearAutoHideTimer st : armsOnlyWhen st (clearAutoHideTimer st).
Proof. left. apply nextTimeoutHandle_clearAutoHideTimer. Qed.

Lemma armsOnlyWhen_scheduleAutoHide st : armsOnlyWhen st (scheduleAutoHide st).
Proof.
  unfold armsOnlyWhen.
  rewrite nextTimeoutHandle_scheduleAutoHide,
    (steady_autoHideConditions _ _ (steady_scheduleAutoHide st)).
  destruct (autoHideConditions st); auto.
Qed.

Lemma armsOnlyWhen_setScrollDirectionHidden isHidden st :
  armsOnlyWhen st (setScrollDirectionHidden isHidden st).
Proof.
  unfold armsOnlyWhen.
  rewrite nextTimeoutHandle_setScrollDirectionHidden,
    (steady_autoHideConditions _ _ (steady_setScrollDirectionHidden isHidden st)).
  destruct isHidden, (autoHideConditions st); auto.
Qed.

Lemma armsOnlyWhen_autoHide st : armsOnlyWhen st (autoHide st).
Proof.
  rewrite autoHide_eq. destruct (autoHideConditions st);
    [apply armsOnlyWhen_setScrollDirectionHidden | apply armsOnlyWhen_refl].
Qed.

Lemma armsOnlyWhen_update st : armsOnlyWhen st (update st).
Proof.
  rewrite update_eq. cbn zeta. destruct (negb _).
  - exact (armsOnlyWhen_setScrollDirectionHidden false (set_rafPending false st)).
  - destruct (_ <? minDelta); [now left|].
    exact (armsOnlyWhen_setScrollDirectionHidden _ (set_rafPending false st)).
Qed.

Lemma armsOnlyWhen_iter_update n st : armsOnlyWhen st (Nat.iter n update st).
Proof.
  induction n as [|n IH]; cbn; [apply armsOnlyWhen_refl|].
  eapply armsOnlyWhen_trans; [exact IH | apply armsOnlyWhen_update | apply steady_update].
Qed.

Lemma armsOnlyWhen_onResize st : armsOnlyWhen st (onResize st).
Proof.
  unfold onResize.
  exact (armsOnlyWhen_update
           (set_lastScrollY (scrollY (window st))
              (set_enableHideAfterPixels (hideAfterPixels (window st)) st))).
Qed.

Lemma armsOnlyWhen_onToggle st : armsOnlyWhen st (onToggle st).
Proof.
  unfold onToggle. destruct (tocDetailsOpen st); [|apply armsOnlyWhen_scheduleAutoHide].
  eapply armsOnlyWhen_trans;
    [ | apply armsOnlyWhen_clearAutoHideTimer | apply steady_clearAutoHideTimer ].
  pose proof (armsOnlyWhen_setScrollDirectionHidden false st) as H.
  unfold armsOnlyWhen in *. exact H.
Qed.

Lemma armsOnlyWhen_step e st st' :
  listenersWired st -> step e st = Some st' -> armsOnlyWhen st st'.
Proof.
  intros L E. destruct e; cbn [step] in E.
  - injection E as <-. now left.
  - injection E as <-. now left.
  - destruct (setOpen b (document st)); [|discriminate]. injection E as <-. now left.
  - destruct (0 <=? ms); [|discriminate]. injection E as <-. now left.
  - injection E as <-. rewrite dispatch_wired by exact L. destruct e.
    + unfold onScroll. destruct (rafPending st); now left.
    + apply armsOnlyWhen_scheduleAutoHide.
    + apply armsOnlyWhen_scheduleAutoHide.
    + apply armsOnlyWhen_onResize.
    + destruct (tocDetails (document st));
        [apply armsOnlyWhen_onToggle | apply armsOnlyWhen_refl].
  - injection E as <-.
    exact (armsOnlyWhen_iter_update _
             (set_window (set_animationFrameCallbacks 0 (window st)) st)).
  - destruct (find _ _); [|discriminate].
    destruct (_ <=? _); [|discriminate]. injection E as <-.
    exact (armsOnlyWhen_autoHide (set_window (clearTimeout h (window st)) st)).
Qed.

(** ** Steps of the event loop *)

Lemma run_cons e es st :
  run (e :: es) st =
  match step e st with
  | Some st' => run es st'
  | None => None
  end.
Proof. reflexivity. Qed.

Lemma step_Elapse ms st :
  0 <= ms ->
  step (Elapse ms) st =
  Some (set_window (set_clock (clock (window st) + ms) (window st)) st).
Proof. intros H. cbn [step]. apply Z.leb_le in H. now rewrite H. Qed.

(** A due timeout at the head of the table runs the auto-hide callback. *)
Lemma step_TimeoutFires_due h t ts st :
  timeouts (window st) = t :: ts -> handle t = h ->
  fireAt t <= clock (window st) ->
  step (TimeoutFires h) st =
  Some (autoHide (set_window (clearTimeout h (window st)) st)).
Proof.
  intros Et Eh Hd. cbn [step]. rewrite Et. cbn [find].
  rewrite Eh, Z.eqb_refl. apply Z.leb_le in Hd. now rewrite Hd.
Qed.

(** ** Example pages and states *)

Lemma reachable_run es : forall st st', reachable st -> run es st = Some st' -> reachable st'.
Proof.
  induction es as [|e es IH]; cbn; intros st st' R E.
  - now injection E as <-.
  - destruct (step e st) as [st1|] eqn:E1; [|discriminate].
    eapply IH; [|exact E]. eapply reachable_step; eassumption.
Qed.

Lemma reachable_runPage p es st :
  pristine p -> runPage p es = Some st -> reachable st.
Proof.
  unfold runPage, wired. intros Hp E.
  destruct (DOMContentLoaded p) as [|st0] eqn:Ew; [discriminate|].
  eapply reachable_run; [|exact E]. eapply reachable_wired; eassumption.
Qed.

Lemma pristine_phone y d : pristine (mkPage (phoneWindow y) d).
Proof. repeat split. Qed.

Lemma pristine_desktop y d : pristine (mkPage (desktopWindow y) d).
Proof. repeat split. Qed.

Lemma openScrolledDown_reachable : reachable openScrolledDown.
Proof.
  apply (reachable_runPage (mkPage (phoneWindow 500) bothElements)
           [OpenChanges true; ScrollTo 900; Fire Scroll]);
    [apply pristine_phone | reflexivity].
Qed.

Lemma nudgedBelowThreshold_reachable : reachable nudgedBelowThreshold.
Proof.
  apply (reachable_runPage (mkPage (phoneWindow 0) bothElements)
           [ScrollTo 424; Fire Scroll; AnimationFrame; ScrollTo 419; Fire Scroll]);
    [apply pristine_phone | reflexivity].
Qed.

Lemma scrolledBelowThreshold_reachable : reachable scrolledBelowThreshold.
Proof.
  apply (reachable_runPage (mkPage (phoneWindow 0) bothElements)
           [ScrollTo 424; Fire Scroll; AnimationFrame; ScrollTo 400; Fire Scroll]);
    [apply pristine_phone | reflexivity].
Qed.

Lemma desktopNudged_reachable : reachable desktopNudged.
Proof.
  apply (reachable_runPage (mkPage (desktopWindow 100) bothElements)
           [ScrollTo 103; Fire Scroll]);
    [apply pristine_desktop | reflexivity].
Qed.

Lemma openTimerDue_reachable : reachable openTimerDue.
Proof.
  apply (reachable_runPage (mkPage (phoneWindow 900) bothElements)
           [Fire Click; Elapse 5000; OpenChanges true]);
    [apply pristine_phone | reflexivity].
Qed.

Lemma hiddenAt900_reachable : reachable hiddenAt900.
Proof.
  apply (reachable_runPage (mkPage (phoneWindow 0) bothElements)
           [ScrollTo 900; Fire Scroll; AnimationFrame]);
    [apply pristine_phone | reflexivity].
Qed.

(** * The claims *)

(** C1: in every reachable state in which the disclosure widget of the
    table of contents is open, [setScrollDirectionHidden] leaves the TOC
    container without the class whatever decision it is given; the
    auto-hide callback does nothing; no step of the event loop that ends
    with the disclosure open puts the class on the container; and the
    toggle event of the opened disclosure removes it. *)
Theorem C1_toc_not_hidden_while_open st :
  reachable st -> tocDetailsOpen st = true ->
  (forall isHidden, tocHidden (setScrollDirectionHidden isHidden st) = false) /\
  autoHide st = st /\
  (forall e st', step e st = Some st' -> tocDetailsOpen st' = true ->
                 tocHidden st' = true -> tocHidden st = true) /\
  (exists st', step (Fire Toggle) st = Some st' /\ tocHidden st' = false).
Proof.
  intros R O. pose proof (reachable_listenersWired _ R) as L.
  split; [|split; [|split]].
  - intros isHidden. now apply tocHidden_open_setScrollDirectionHidden.
  - now apply autoHide_open.
  - intros e st' E. now apply (step_open_never_hides_toc e).
  - exists (onToggle st). split; [|now apply tocHidden_onToggle_open].
    cbn [step]. rewrite dispatch_wired by exact L.
    destruct (tocDetails (document st)) eqn:Ed; [reflexivity|].
    now apply tocDetailsOpen_present in O.
Qed.

Lemma C1_witness :
  reachable openScrolledDown /\ tocDetailsOpen openScrolledDown = true /\
  ((forall isHidden,
      tocHidden (setScrollDirectionHidden isHidden openScrolledDown) = false) /\
   autoHide openScrolledDown = openScrolledDown /\
   (forall e st', step e openScrolledDown = Some st' -> tocDetailsOpen st' = true ->
                  tocHidden st' = true -> tocHidden openScrolledDown = true) /\
   (exists st', step (Fire Toggle) openScrolledDown = Some st' /\
                tocHidden st' = false)).
Proof.
  split; [apply openScrolledDown_reachable|].
  split; [reflexivity|].
  apply (C1_toc_not_hidden_while_open openScrolledDown);
    [apply openScrolledDown_reachable | reflexivity].
Defined.

(** C2: [scheduleAutoHide] leaves a timeout pending exactly when the
    viewport is mobile, the scroll position has reached the threshold and
    the disclosure is not open, and that timeout is due 5000 ms after the
    call; no step of the event loop calls [setTimeout] unless the three
    conditions hold in the state it leaves; the browser runs the callback
    of a timeout only once it is due; and the callback hides both elements
    when the three conditions hold at that time and does nothing
    otherwise. *)
Theorem C2_auto_hide_timer st :
  reachable st ->
  timerState (scheduleAutoHide st) =
    (if autoHideConditions st
     then ([mkTimeout (nextTimeoutHandle (window st)) (clock (window st) + 5000)],
           nextTimeoutHandle (window st) + 1, Some (nextTimeoutHandle (window st)))
     else ([], nextTimeoutHandle (window st), None)) /\
  autoHideConditions st =
    isMobileViewport (window st)
    && (enableHideAfterPixels st <=? scrollY (window st))
    && negb (match tocDetails (document st) with
             | Some d => open d
             | None => false
             end) /\
  (forall e st', step e st = Some st' ->
     nextTimeoutHandle (window st') <> nextTimeoutHandle (window st) ->
     autoHideConditions st' = true) /\
  (forall h st', step (TimeoutFires h) st = Some st' ->
     exists t, In t (timeouts (window st)) /\ handle t = h /\
               fireAt t <= clock (window st) /\
               st' = autoHide (set_window (clearTimeout h (window st)) st)) /\
  autoHide st = (if autoHideConditions st then setScrollDirectionHidden true st else st) /\
  (autoHideConditions st = true ->
     (tocContainer (document st) <> None -> tocHidden (autoHide st) = true) /\
     (backToTopButton (document st) <> None -> backToTopHidden (autoHide st) = true)).
Proof.
  intros R.
  pose proof (reachable_listenersWired _ R) as L.
  pose proof (reachable_atMostOnePending _ R) as P.
  split; [|split; [|split; [|split; [|split]]]].
  - now rewrite timerState_scheduleAutoHide.
  - reflexivity.
  - intros e st' E Hn. destruct (armsOnlyWhen_step e st st' L E); [contradiction|assumption].
  - intros h st'. cbn [step].
    destruct (find _ _) as [t|] eqn:Ef; [|discriminate].
    destruct (fireAt t <=? clock (window st)) eqn:Ed; [|discriminate].
    intros E. injection E as <-. exists t.
    apply find_some in Ef as [Hin Hh].
    repeat split; [exact Hin | now apply Z.eqb_eq | now apply Z.leb_le].
  - apply autoHide_eq.
  - intros C. rewrite autoHide_eq, C.
    rewrite tocHidden_setScrollDirectionHidden, backToTopHidden_setScrollDirectionHidden.
    unfold autoHideConditions in C.
    apply andb_true_iff in C as [_ ->].
    split.
    + destruct (tocContainer (document st)); [reflexivity | congruence].
    + destruct (backToTopButton (document st)); [reflexivity | congruence].
Qed.

Lemma C2_witness :
  reachable hiddenAt900 /\
  timerState (scheduleAutoHide hiddenAt900) = ([mkTimeout 1 5000], 2, Some 1) /\
  autoHideConditions hiddenAt900 = true.
Proof.
  split; [apply hiddenAt900_reachable|].
  split; [|reflexivity].
  exact (proj1 (C2_auto_hide_timer hiddenAt900 hiddenAt900_reachable)).
Defined.

(** C3: in every reachable state at most one timeout is pending and the
    controller holds its handle; [clearAutoHideTimer] leaves none pending;
    [scheduleAutoHide] leaves none of the earlier ones pending, only the
    one it creates, if any; and [setScrollDirectionHidden(true)] leaves none
    pending and does not call [setTimeout]. *)
Theorem C3_at_most_one_timer st :
  reachable st ->
  (List.length (timeouts (window st)) <= 1)%nat /\
  (forall t, In t (timeouts (window st)) -> autoHideTimeoutId st = Some (handle t)) /\
  timeouts (window (clearAutoHideTimer st)) = [] /\
  timeouts (window (scheduleAutoHide st)) =
    (if autoHideConditions st
     then [mkTimeout (nextTimeoutHandle (window st)) (clock (window st) + 5000)]
     else []) /\
  timerState (setScrollDirectionHidden true st) =
    ([], nextTimeoutHandle (window st), None).
Proof.
  intros R. pose proof (reachable_atMostOnePending _ R) as P.
  destruct P as [Hlen Hid]. split; [exact Hlen|]. split; [exact Hid|].
  assert (P : atMostOnePending st) by (split; assumption).
  split; [|split].
  - pose proof (timerState_clearAutoHideTimer st P) as E.
    injection E as E1 _ _. exact E1.
  - pose proof (timerState_scheduleAutoHide st P) as E.
    unfold timerState in E.
    destruct (autoHideConditions st); injection E as E1 _ _; exact E1.
  - now rewrite timerState_setScrollDirectionHidden.
Qed.

Lemma C3_witness :
  reachable openTimerDue /\
  (List.length (timeouts (window openTimerDue)) <= 1)%nat /\
  timeouts (window (clearAutoHideTimer openTimerDue)) = [].
Proof.
  split; [apply openTimerDue_reachable|].
  pose proof (C3_at_most_one_timer openTimerDue openTimerDue_reachable) as H.
  split; [exact (proj1 H) | exact (proj1 (proj2 (proj2 H)))].
Defined.

(** C4, as stated, fails: on a phone with threshold 420, after a jump to
    424 px hid both elements, a move back to 419 px is below the threshold
    but within 8 px of the baseline, and the evaluation leaves both
    elements hidden. *)
Lemma C4_counterexample :
  reachable nudgedBelowThreshold /\
  enableHideAfterPixels nudgedBelowThreshold =
    Z.max 200 (innerHeight (window nudgedBelowThreshold) * 6 / 10) /\
  scrollY (window nudgedBelowThreshold) < enableHideAfterPixels nudgedBelowThreshold /\
  tocHidden (update nudgedBelowThreshold) = true /\
  backToTopHidden (update nudgedBelowThreshold) = true /\
  option_map tocHidden (step AnimationFrame nudgedBelowThreshold) = Some true /\
  option_map backToTopHidden (step AnimationFrame nudgedBelowThreshold) = Some true.
Proof.
  split; [apply nudgedBelowThreshold_reachable|].
  repeat split.
Qed.

(** C4, amended: for every scroll position below the threshold, an
    evaluation removes the class from both elements when the viewport is
    not mobile or the position is at least 8 px away from the baseline; the
    threshold is max(200, floor(innerHeight * 0.6)) when the controller is
    wired and after every resize event. *)
Theorem C4_below_threshold_shown st :
  scrollY (window st) < enableHideAfterPixels st ->
  isMobileViewport (window st) = false \/
  8 <= Z.abs (scrollY (window st) - lastScrollY st) ->
  (tocHidden (update st) = false /\ backToTopHidden (update st) = false) /\
  enableHideAfterPixels (onResize st) = Z.max 200 (innerHeight (window st) * 6 / 10) /\
  (forall p st0, DOMContentLoaded p = Controller st0 ->
     enableHideAfterPixels st0 = Z.max 200 (innerHeight (pageWindow p) * 6 / 10)).
Proof.
  intros Hy Hd. split; [|split].
  - rewrite update_eq. cbn zeta.
    assert (Hshown : forall y0 s,
              tocHidden (set_lastScrollY y0 (setScrollDirectionHidden false s)) = false /\
              backToTopHidden (set_lastScrollY y0 (setScrollDirectionHidden false s)) = false).
    { intros y0 s. split.
      - change (tocHidden (setScrollDirectionHidden false s) = false).
        rewrite tocHidden_setScrollDirectionHidden.
        now destruct (tocContainer (document s)).
      - change (backToTopHidden (setScrollDirectionHidden false s) = false).
        rewrite backToTopHidden_setScrollDirectionHidden.
        now destruct (backToTopButton (document s)). }
    destruct (isMobileViewport (window st)) eqn:M; cbn [negb]; [|apply Hshown].
    destruct Hd as [Hd|Hd]; [discriminate|].
    apply Z.ltb_lt in Hy. rewrite Hy. cbn [negb andb].
    unfold minDelta. destruct (Z.ltb_spec (Z.abs (scrollY (window st) - lastScrollY st)) 8);
      [lia | apply Hshown].
  - unfold onResize.
    now rewrite (steady_threshold _ _ (steady_update _)).
  - intros p st0. unfold DOMContentLoaded.
    set (s := update _).
    assert (Hs : enableHideAfterPixels s = hideAfterPixels (pageWindow p))
      by (unfold s; now rewrite (steady_threshold _ _ (steady_update _))).
    destruct (tocContainer (pageDocument p)), (backToTopButton (pageDocument p));
      try discriminate;
      destruct (tocDetails (pageDocument p)); intros E; injection E as <-; exact Hs.
Qed.

Lemma C4_witness :
  reachable scrolledBelowThreshold /\
  scrollY (window scrolledBelowThreshold) < enableHideAfterPixels scrolledBelowThreshold /\
  8 <= Z.abs (scrollY (window scrolledBelowThreshold) - lastScrollY scrolledBelowThreshold) /\
  tocHidden scrolledBelowThreshold = true /\
  tocHidden (update scrolledBelowThreshold) = false /\
  backToTopHidden (update scrolledBelowThreshold) = false.
Proof.
  split; [apply scrolledBelowThreshold_reachable|].
  split; [reflexivity|]. split; [cbn; lia|]. split; [reflexivity|].
  apply (C4_below_threshold_shown scrolledBelowThreshold);
    [reflexivity | right; cbn; lia].
Defined.

(** C5, as stated, fails: on a desktop viewport loaded at 100 px and
    scrolled to 103 px the difference is 3 px, and the evaluation moves the
    baseline to 103 px. *)
Lemma C5_counterexample :
  reachable desktopNudged /\
  Z.abs (scrollY (window desktopNudged) - lastScrollY desktopNudged) < 8 /\
  lastScrollY desktopNudged = 100 /\
  lastScrollY (update desktopNudged) = 103 /\
  option_map lastScrollY (step AnimationFrame desktopNudged) = Some 103.
Proof.
  split; [apply desktopNudged_reachable|].
  repeat split.
Qed.

(** C5, amended: for every evaluation on a mobile viewport where the
    scroll position is less than 8 px away from the baseline, [update] only
    clears its own pending flag: no class of either element changes, the
    baseline is not updated and the timer is left as it was. *)
Theorem C5_small_delta_no_decision st :
  isMobileViewport (window st) = true ->
  Z.abs (scrollY (window st) - lastScrollY st) < 8 ->
  update st = set_rafPending false st /\
  document (update st) = document st /\
  lastScrollY (update st) = lastScrollY st /\
  timerState (update st) = timerState st.
Proof.
  intros M Hd.
  assert (E : update st = set_rafPending false st).
  { rewrite update_eq. cbn zeta. rewrite M. cbn [negb].
    apply Z.ltb_lt in Hd. unfold minDelta. now rewrite Hd. }
  rewrite E. repeat split.
Qed.

Lemma C5_witness :
  reachable nudgedBelowThreshold /\
  isMobileViewport (window nudgedBelowThreshold) = true /\
  Z.abs (scrollY (window nudgedBelowThreshold) - lastScrollY nudgedBelowThreshold) < 8 /\
  document (update nudgedBelowThreshold) = document nudgedBelowThreshold /\
  lastScrollY (update nudgedBelowThreshold) = 424.
Proof.
  split; [apply nudgedBelowThreshold_reachable|].
  split; [reflexivity|]. split; [cbn; lia|].
  pose proof (C5_small_delta_no_decision nudgedBelowThreshold eq_refl) as H.
  assert (Hd : Z.abs (scrollY (window nudgedBelowThreshold)
                      - lastScrollY nudgedBelowThreshold) < 8) by (cbn; lia).
  destruct (H Hd) as (_ & Hdoc & Hlast & _).
  split; [exact Hdoc | exact Hlast].
Defined.

(** C6: a viewport is classified as not mobile when [matchMedia] is
    missing or the width is at least 900 px.  In every reachable state with
    such a viewport, an evaluation removes the class from both elements,
    records the scroll position as the baseline and leaves no timeout
    pending, whatever the scroll position and the baseline are;
    [scheduleAutoHide] leaves no timeout pending; and no step of the event
    loop that ends on such a viewport calls [setTimeout]. *)
Theorem C6_desktop_always_shown st :
  reachable st ->
  isMobileViewport (window st) = false ->
  (matchMediaIsFunction (window st) = false \/ 900 <= viewportWidth (window st)) /\
  tocHidden (update st) = false /\
  backToTopHidden (update st) = false /\
  lastScrollY (update st) = scrollY (window st) /\
  timerState (update st) = ([], nextTimeoutHandle (window st), None) /\
  timerState (scheduleAutoHide st) = ([], nextTimeoutHandle (window st), None) /\
  (forall e st', step e st = Some st' -> isMobileViewport (window st') = false ->
     nextTimeoutHandle (window st') = nextTimeoutHandle (window st)).
Proof.
  intros R M.
  pose proof (reachable_listenersWired _ R) as L.
  pose proof (reachable_atMostOnePending _ R) as P.
  pose proof (desktop_no_autoHideConditions st M) as C.
  split; [|split; [|split; [|split; [|split; [|split]]]]].
  - unfold isMobileViewport, matchesMaxWidth899 in M.
    destruct (matchMediaIsFunction (window st)); [right | now left].
    cbn in M. apply Z.leb_gt in M. lia.
  - rewrite update_eq. cbn zeta. rewrite M. cbn [negb].
    change (tocHidden (setScrollDirectionHidden false (set_rafPending false st)) = false).
    rewrite tocHidden_setScrollDirectionHidden.
    now destruct (tocContainer _).
  - rewrite update_eq. cbn zeta. rewrite M. cbn [negb].
    change (backToTopHidden (setScrollDirectionHidden false (set_rafPending false st)) = false).
    rewrite backToTopHidden_setScrollDirectionHidden.
    now destruct (backToTopButton _).
  - rewrite update_eq. cbn zeta. rewrite M. reflexivity.
  - rewrite update_eq. cbn zeta. rewrite M. cbn [negb].
    change (timerState (setScrollDirectionHidden false (set_rafPending false st))
            = ([], nextTimeoutHandle (window st), None)).
    rewrite timerState_setScrollDirectionHidden by exact P.
    change (autoHideConditions (set_rafPending false st)) with (autoHideConditions st).
    now rewrite C.
  - rewrite timerState_scheduleAutoHide by exact P. now rewrite C.
  - intros e st' E M'. destruct (armsOnlyWhen_step e st st' L E) as [H|H]; [exact H|].
    rewrite (desktop_no_autoHideConditions st' M') in H. discriminate.
Qed.

Lemma C6_witness :
  reachable desktopNudged /\ isMobileViewport (window desktopNudged) = false /\
  tocHidden (update desktopNudged) = false /\
  backToTopHidden (update desktopNudged) = false /\
  lastScrollY (update desktopNudged) = 103.
Proof.
  split; [apply desktopNudged_reachable|]. split; [reflexivity|].
  pose proof (C6_desktop_always_shown desktopNudged desktopNudged_reachable eq_refl)
    as (_ & Ht & Hb & Hl & _).
  repeat split; assumption.
Defined.

(** C7, as stated, fails for the timer: on a phone at 900 px (threshold
    420) with the disclosure open, the due timeout runs its callback and
    the "back to top" button does not receive the class. *)
Lemma C7_counterexample :
  reachable openTimerDue /\
  tocDetailsOpen openTimerDue = true /\
  isMobileViewport (window openTimerDue) = true /\
  enableHideAfterPixels openTimerDue <= scrollY (window openTimerDue) /\
  backToTopHidden openTimerDue = false /\
  option_map backToTopHidden (step (TimeoutFires 1) openTimerDue) = Some false /\
  backToTopHidden (autoHide openTimerDue) = false.
Proof.
  split; [apply openTimerDue_reachable|].
  repeat split. cbn. lia.
Qed.

(** C7, amended: while the disclosure is open, a hide decision applied by
    [setScrollDirectionHidden], and so a scroll-down evaluation on a mobile
    viewport past the threshold, puts the class on the "back to top" button
    and not on the TOC container; the auto-hide callback applies no
    decision while the disclosure is open. *)
Theorem C7_exemption_is_toc_only st :
  tocDetailsOpen st = true ->
  backToTopButton (document st) <> None ->
  (backToTopHidden (setScrollDirectionHidden true st) = true /\
   tocHidden (setScrollDirectionHidden true st) = false) /\
  (isMobileViewport (window st) = true ->
   enableHideAfterPixels st <= scrollY (window st) ->
   8 <= scrollY (window st) - lastScrollY st ->
   backToTopHidden (update st) = true /\ tocHidden (update st) = false) /\
  autoHide st = st.
Proof.
  intros O B.
  assert (H : forall s, tocDetailsOpen s = true -> backToTopButton (document s) <> None ->
            backToTopHidden (setScrollDirectionHidden true s) = true /\
            tocHidden (setScrollDirectionHidden true s) = false).
  { intros s Os Bs. split.
    - rewrite backToTopHidden_setScrollDirectionHidden.
      destruct (backToTopButton (document s)); [reflexivity | congruence].
    - now apply tocHidden_open_setScrollDirectionHidden. }
  split; [now apply H|]. split; [|now apply autoHide_open].
  intros M Hy Hd. rewrite update_eq. cbn zeta. rewrite M. cbn [negb].
  unfold minDelta.
  destruct (Z.ltb_spec (Z.abs (scrollY (window st) - lastScrollY st)) 8); [lia|].
  destruct (Z.ltb_spec (scrollY (window st)) (enableHideAfterPixels st)); [lia|].
  destruct (Z.ltb_spec 0 (scrollY (window st) - lastScrollY st)); [|lia].
  cbn [negb andb].
  exact (H (set_rafPending false st) O B).
Qed.

Lemma C7_witness :
  reachable openScrolledDown /\
  tocDetailsOpen openScrolledDown = true /\
  backToTopButton (document openScrolledDown) <> None /\
  backToTopHidden (update openScrolledDown) = true /\
  tocHidden (update openScrolledDown) = false.
Proof.
  split; [apply openScrolledDown_reachable|].
  split; [reflexivity|]. split; [discriminate|].
  assert (B : backToTopButton (document openScrolledDown) <> None) by discriminate.
  pose proof (C7_exemption_is_toc_only openScrolledDown eq_refl B) as (_ & H & _).
  apply H; [reflexivity | cbn; lia | cbn; lia].
Defined.

(** C8: evaluating twice in a row gives the state the first evaluation
    gave: the second call changes no class of either element (nor
    anything else). *)
Theorem C8_update_idempotent st :
  update (update st) = update st /\
  tocContainer (document (update (update st))) = tocContainer (document (update st)) /\
  backToTopButton (document (update (update st))) =
    backToTopButton (document (update st)).
Proof.
  rewrite update_twice. repeat split.
Qed.

(** C9: on a page with neither element the DOMContentLoaded handler
    returns at once and leaves the page as it found it, with no listener
    registered and no class changed; with at least one element it wires the
    controller and registers its listeners; and [setScrollDirectionHidden]
    skips an absent element and toggles the class of the one present. *)
Theorem C9_missing_elements p :
  (tocContainer (pageDocument p) = None -> backToTopButton (pageDocument p) = None ->
   DOMContentLoaded p = NoController p) /\
  (tocContainer (pageDocument p) <> None \/ backToTopButton (pageDocument p) <> None ->
   exists st, DOMContentLoaded p = Controller st /\
              listeners (window st) =
                listeners (pageWindow p) ++ registered (pageDocument p)) /\
  (forall st isHidden, tocContainer (document st) = None ->
     tocContainer (document (setScrollDirectionHidden isHidden st)) = None /\
     backToTopHidden (setScrollDirectionHidden isHidden st) =
       match backToTopButton (document st) with
       | Some _ => isHidden
       | None => false
       end) /\
  (forall st isHidden, backToTopButton (document st) = None ->
     backToTopButton (document (setScrollDirectionHidden isHidden st)) = None /\
     tocHidden (setScrollDirectionHidden isHidden st) =
       match tocContainer (document st) with
       | Some _ => isHidden && negb (tocDetailsOpen st)
       | None => false
       end).
Proof.
  split; [|split; [|split]].
  - unfold DOMContentLoaded. now intros -> ->.
  - intros H. unfold DOMContentLoaded. set (s := update _).
    assert (Hs : listeners (window s) =
                 listeners (pageWindow p)
                 ++ [(Scroll, CbOnScroll); (Touchstart, CbScheduleAutoHide);
                     (Click, CbScheduleAutoHide); (Resize, CbResize)]).
    { unfold s. rewrite (steady_listeners _ _ (steady_update _)). cbn.
      now rewrite <- !app_assoc. }
    unfold registered.
    destruct (tocContainer (pageDocument p)) eqn:Et,
             (backToTopButton (pageDocument p)) eqn:Eb;
      try (destruct H; congruence);
      destruct (tocDetails (pageDocument p));
      eexists; (split; [reflexivity|]); cbn; rewrite Hs, <- ?app_assoc;
      rewrite ?app_nil_r; reflexivity.
  - intros st isHidden Et. split.
    + rewrite setScrollDirectionHidden_document. unfold toggled. cbn. now rewrite Et.
    + apply backToTopHidden_setScrollDirectionHidden.
  - intros st isHidden Eb. split.
    + rewrite setScrollDirectionHidden_document. unfold toggled. cbn. now rewrite Eb.
    + apply tocHidden_setScrollDirectionHidden.
Qed.

Lemma C9_witness :
  DOMContentLoaded (mkPage (phoneWindow 900) (mkDom None None)) =
  NoController (mkPage (phoneWindow 900) (mkDom None None)).
Proof.
  apply (proj1 (C9_missing_elements (mkPage (phoneWindow 900) (mkDom None None))));
    reflexivity.
Defined.

(** C10: in every reachable state with a mobile viewport, the scroll
    position at or past the threshold and the disclosure not open, a
    touchstart or click event runs [scheduleAutoHide], which leaves one
    timeout pending, due 5000 ms later, and changes no class, whether or
    not the elements carry the class; when both do, the timeout is pending
    while they are hidden, and its firing 5000 ms later leaves the document
    as it was. *)
Theorem C10_touch_rearms_hidden st :
  reachable st -> autoHideConditions st = true ->
  (step (Fire Touchstart) st = Some (scheduleAutoHide st) /\
   step (Fire Click) st = Some (scheduleAutoHide st)) /\
  timerState (scheduleAutoHide st) =
    ([mkTimeout (nextTimeoutHandle (window st)) (clock (window st) + 5000)],
     nextTimeoutHandle (window st) + 1, Some (nextTimeoutHandle (window st))) /\
  document (scheduleAutoHide st) = document st /\
  (tocHidden st = true -> backToTopHidden st = true ->
   tocHidden (scheduleAutoHide st) = true /\
   backToTopHidden (scheduleAutoHide st) = true /\
   timeouts (window (scheduleAutoHide st)) <> [] /\
   exists st',
     run [Fire Touchstart; Elapse 5000; TimeoutFires (nextTimeoutHandle (window st))] st
       = Some st' /\
     document st' = document st /\ timeouts (window st') = []).
Proof.
  intros R C.
  pose proof (reachable_listenersWired _ R) as L.
  pose proof (reachable_atMostOnePending _ R) as P.
  pose proof (timerState_scheduleAutoHide st P) as T. rewrite C in T.
  assert (S1 : step (Fire Touchstart) st = Some (scheduleAutoHide st))
    by (cbn [step]; now rewrite dispatch_wired).
  split; [split; [exact S1 | cbn [step]; now rewrite dispatch_wired]|].
  split; [exact T|]. split; [apply document_scheduleAutoHide|].
  intros Ht Hb.
  rewrite (tocHidden_same_document _ _ (document_scheduleAutoHide st)),
    (backToTopHidden_same_document _ _ (document_scheduleAutoHide st)).
  split; [exact Ht|]. split; [exact Hb|].
  unfold timerState, armedTimer in T. injection T as Tt Tn Ti.
  split; [rewrite Tt; discriminate|].
  pose proof (steady_scheduleAutoHide st) as S.
  set (s1 := scheduleAutoHide st) in *.
  set (s3 := set_window
               (clearTimeout (nextTimeoutHandle (window st))
                  (set_clock (clock (window s1) + 5000) (window s1))) s1).
  assert (C3 : autoHideConditions s3 = true)
    by (change (autoHideConditions s1 = true);
        now rewrite (steady_autoHideConditions _ _ S)).
  assert (D3 : document s3 = document st) by apply document_scheduleAutoHide.
  assert (P3 : atMostOnePending s3).
  { apply (atMostOnePending_clearTimeout _
             (set_window (set_clock (clock (window s1) + 5000) (window s1)) s1)).
    exact (atMostOnePending_scheduleAutoHide st P). }
  exists (autoHide s3). split; [|split].
  - rewrite run_cons, S1. fold s1.
    rewrite run_cons, step_Elapse by lia.
    rewrite run_cons.
    rewrite (step_TimeoutFires_due (nextTimeoutHandle (window st))
               (mkTimeout (nextTimeoutHandle (window st))
                          (clock (window st) + autoHideDelayMs)) []).
    + reflexivity.
    + exact Tt.
    + reflexivity.
    + cbn. rewrite (steady_clock _ _ S). unfold autoHideDelayMs. lia.
  - rewrite autoHide_eq, C3, setScrollDirectionHidden_document.
    rewrite toggled_settled; [exact D3 | |].
    + rewrite (tocHidden_same_document _ _ D3), Ht.
      unfold autoHideConditions in C3. apply andb_true_iff in C3 as [_ ->].
      reflexivity.
    + now rewrite (backToTopHidden_same_document _ _ D3).
  - rewrite autoHide_eq, C3.
    pose proof (timerState_setScrollDirectionHidden true s3 P3) as T3.
    cbn [negb andb] in T3. unfold timerState, disarmedTimer in T3.
    injection T3 as T3 _ _. exact T3.
Qed.

Lemma C10_witness :
  reachable hiddenAt900 /\ autoHideConditions hiddenAt900 = true /\
  tocHidden hiddenAt900 = true /\ backToTopHidden hiddenAt900 = true /\
  step (Fire Touchstart) hiddenAt900 = Some (scheduleAutoHide hiddenAt900) /\
  timeouts (window (scheduleAutoHide hiddenAt900)) <> [] /\
  tocHidden (scheduleAutoHide hiddenAt900) = true /\
  backToTopHidden (scheduleAutoHide hiddenAt900) = true.
Proof.
  split; [apply hiddenAt900_reachable|]. split; [reflexivity|].
  split; [reflexivity|]. split; [reflexivity|].
  pose proof (C10_touch_rearms_hidden hiddenAt900 hiddenAt900_reachable eq_refl)
    as ((H1 & _) & _ & _ & H4).
  split; [exact H1|].
  destruct (H4 eq_refl eq_refl) as (Ht & Hb & Hp & _).
  repeat split; assumption.
Defined.

(** * Further properties *)

(** ** What the controller leaves alone *)

Lemma bystander_refl st : bystander st st.
Proof. constructor; auto. Qed.

Lemma bystander_trans st1 st2 st3 :
  bystander st1 st2 -> bystander st2 st3 -> bystander st1 st3.
Proof.
  intros [Hc1 Ht1 Hb1 Hp1] [Hc2 Ht2 Hb2 Hp2]. constructor.
  - congruence.
  - intros c Hc. now rewrite Ht2, Ht1.
  - intros c Hc. now rewrite Hb2, Hb1.
  - intros t Hin. destruct (Hp2 t Hin) as [H|H]; [auto|].
    right. now rewrite <- Hc1.
Qed.

(** Writing the closure variables or the frame queue is invisible here. *)
Lemma bystander_same st st' :
  clock (window st') = clock (window st) ->
  document st' = document st ->
  timeouts (window st') = timeouts (window st) ->
  bystander st st'.
Proof.
  intros Hc Hd Ht. constructor; unfold tocHasClass, backToTopHasClass;
    rewrite ?Hd, ?Ht; auto.
Qed.

Lemma bystander_clearAutoHideTimer st : bystander st (clearAutoHideTimer st).
Proof.
  rewrite clearAutoHideTimer_eq. constructor; try reflexivity.
  cbn. unfold pendingAfterClear. intros t Hin. left.
  destruct (autoHideTimeoutId st); [|exact Hin].
  apply filter_In in Hin. tauto.
Qed.

Lemma bystander_scheduleAutoHide st : bystander st (scheduleAutoHide st).
Proof.
  rewrite scheduleAutoHide_eq.
  destruct (autoHideConditions st); [|apply bystander_clearAutoHideTimer].
  constructor; try reflexivity.
  unfold armed. cbn. intros t Hin. apply in_app_or in Hin as [Hin|[<-|[]]].
  - left. unfold pendingAfterClear in Hin.
    destruct (autoHideTimeoutId st); [|exact Hin].
    apply filter_In in Hin. tauto.
  - right. reflexivity.
Qed.

Lemma bystander_toggled isHidden st :
  bystander st (set_document (toggled isHidden st) st).
Proof.
  constructor; try reflexivity; try (intros t Hin; left; exact Hin);
    intros c Hc; unfold tocHasClass, backToTopHasClass, toggled; cbn.
  - destruct (tocContainer (document st)); [|reflexivity]. cbn.
    apply ClassListFacts.contains_toggle_other. congruence.
  - destruct (backToTopButton (document st)); [|reflexivity]. cbn.
    apply ClassListFacts.contains_toggle_other. congruence.
Qed.

Lemma bystander_setScrollDirectionHidden isHidden st :
  bystander st (setScrollDirectionHidden isHidden st).
Proof.
  rewrite setScrollDirectionHidden_eq.
  eapply bystander_trans; [apply bystander_toggled|].
  destruct isHidden; [apply bystander_clearAutoHideTimer | apply bystander_scheduleAutoHide].
Qed.

Lemma bystander_autoHide st : bystander st (autoHide st).
Proof.
  rewrite autoHide_eq. destruct (autoHideConditions st);
    [apply bystander_setScrollDirectionHidden | apply bystander_refl].
Qed.

Lemma bystander_update st : bystander st (update st).
Proof.
  rewrite update_eq. cbn zeta.
  assert (H : forall b y,
            bystander st (set_lastScrollY y
                            (setScrollDirectionHidden b (set_rafPending false st)))).
  { intros b y.
    apply (bystander_trans _ (set_rafPending false st));
      [apply bystander_same; reflexivity|].
    apply (bystander_trans _ (setScrollDirectionHidden b (set_rafPending false st)));
      [apply bystander_setScrollDirectionHidden | apply bystander_same; reflexivity]. }
  destruct (negb _); [apply H|].
  destruct (_ <? minDelta); [apply bystander_same; reflexivity | apply H].
Qed.

Lemma bystander_iter_update n st : bystander st (Nat.iter n update st).
Proof.
  induction n as [|n IH]; cbn; [apply bystander_refl|].
  eapply bystander_trans; [exact IH | apply bystander_update].
Qed.

Lemma bystander_onScroll st : bystander st (onScroll st).
Proof.
  unfold onScroll. destruct (rafPending st);
    [apply bystander_refl | apply bystander_same; reflexivity].
Qed.

Lemma bystander_onResize st : bystander st (onResize st).
Proof.
  unfold onResize.
  eapply bystander_trans; [|apply bystander_update].
  apply bystander_same; reflexivity.
Qed.

Lemma bystander_onToggle st : bystander st (onToggle st).
Proof.
  unfold onToggle. destruct (tocDetailsOpen st); [|apply bystander_scheduleAutoHide].
  eapply bystander_trans; [|apply bystander_clearAutoHideTimer].
  apply (bystander_trans _ (setScrollDirectionHidden false st));
    [apply bystander_setScrollDirectionHidden | apply bystander_same; reflexivity].
Qed.

Lemma bystander_runCallback cb st : bystander st (runCallback cb st).
Proof.
  destruct cb; cbn [runCallback].
  - apply bystander_onScroll.
  - apply bystander_scheduleAutoHide.
  - apply bystander_onResize.
  - apply bystander_onToggle.
Qed.

Lemma bystander_dispatch e st : bystander st (dispatch e st).
Proof.
  unfold dispatch. generalize (listeners (window st)) as ls. intros ls.
  assert (H : forall s, bystander st s ->
            bystander st
              (fold_left (fun s l => if DomEvent_eqb (fst l) e
                                     then runCallback (snd l) s else s) ls s)).
  { induction ls as [|l ls IH]; intros s Hs; cbn; [exact Hs|].
    apply IH. destruct (DomEvent_eqb (fst l) e); [|exact Hs].
    eapply bystander_trans; [exact Hs | apply bystander_runCallback]. }
  apply H, bystander_refl.
Qed.

(** Every step but the passing of time is a bystander. *)
Lemma bystander_step e st st' :
  step e st = Some st' -> (forall ms, e <> Elapse ms) -> bystander st st'.
Proof.
  destruct e; cbn [step]; intros E Hne.
  - injection E as <-. apply bystander_same; reflexivity.
  - injection E as <-. apply bystander_same; reflexivity.
  - destruct (setOpen b (document st)) as [d'|] eqn:Eo; [|discriminate].
    injection E as <-. apply setOpen_inv in Eo as (toc & c & Et & Ec & ->).
    constructor; try reflexivity; try (intros t Hin; left; exact Hin);
      intros c0 _; unfold tocHasClass, backToTopHasClass; cbn; now rewrite ?Et.
  - now destruct (Hne ms).
  - injection E as <-. apply bystander_dispatch.
  - injection E as <-.
    eapply bystander_trans; [|apply bystander_iter_update].
    apply bystander_same; reflexivity.
  - destruct (find _ _); [|discriminate].
    destruct (_ <=? _); [|discriminate]. injection E as <-.
    eapply bystander_trans; [|apply bystander_autoHide].
    constructor; try reflexivity. cbn. intros t0 Hin. left.
    apply filter_In in Hin. tauto.
Qed.

Lemma dueWithinDelay_step e st st' :
  step e st = Some st' -> dueWithinDelay st -> dueWithinDelay st'.
Proof.
  intros E H. destruct e as [y|w h|b|ms|ev| |h].
  4: { cbn [step] in E. destruct (0 <=? ms) eqn:Hms; [|discriminate].
       injection E as <-. apply Z.leb_le in Hms.
       intros t Hin. cbn in *. specialize (H t Hin). lia. }
  all: (assert (B : bystander st st') by (apply (bystander_step _ _ _ E); discriminate);
        intros t Hin; rewrite (bystander_clock _ _ B);
        destruct (bystander_timeouts _ _ B t Hin) as [Hold|Hnew];
        [exact (H t Hold) | rewrite Hnew; lia]).
Qed.

Lemma reachable_dueWithinDelay st : reachable st -> dueWithinDelay st.
Proof.
  induction 1 as [p st Hp E | e st st' _ IH E].
  - destruct Hp as (Ht & _ & _). unfold DOMContentLoaded in E.
    set (s0 := mkState _ _ _ _ _ _) in E.
    set (s1 := set_window _ (set_window _ (set_window _ (set_window _ s0)))) in E.
    assert (H1 : dueWithinDelay (update s1)).
    { pose proof (bystander_update s1) as B. intros t Hin.
      rewrite (bystander_clock _ _ B).
      destruct (bystander_timeouts _ _ B t Hin) as [Hold|Hnew]; [|rewrite Hnew; lia].
      cbn in Hold. rewrite Ht in Hold. destruct Hold. }
    destruct (tocContainer (pageDocument p)), (backToTopButton (pageDocument p));
      try discriminate;
      destruct (tocDetails (pageDocument p)); injection E as <-; exact H1.
  - eapply dueWithinDelay_step; eassumption.
Qed.

(** ** The threshold *)

Lemma hideAfterPixels_floor w : 200 <= hideAfterPixels w.
Proof. unfold hideAfterPixels. apply Z.le_max_l. Qed.

Lemma enableHideAfterPixels_onResize st :
  enableHideAfterPixels (onResize st) = hideAfterPixels (window st).
Proof. unfold onResize. now rewrite (steady_threshold _ _ (steady_update _)). Qed.

Lemma threshold_floor_runCallback cb st :
  200 <= enableHideAfterPixels st -> 200 <= enableHideAfterPixels (runCallback cb st).
Proof.
  intros H. destruct cb; cbn [runCallback].
  - now rewrite (steady_threshold _ _ (steady_onScroll st)).
  - now rewrite (steady_threshold _ _ (steady_scheduleAutoHide st)).
  - rewrite enableHideAfterPixels_onResize. apply hideAfterPixels_floor.
  - now rewrite (steady_threshold _ _ (steady_onToggle st)).
Qed.

Lemma threshold_floor_step e st st' :
  step e st = Some st' ->
  200 <= enableHideAfterPixels st -> 200 <= enableHideAfterPixels st'.
Proof.
  destruct e; cbn [step]; intros E H.
  - injection E as <-. exact H.
  - injection E as <-. exact H.
  - destruct (setOpen b (document st)); [|discriminate]. injection E as <-. exact H.
  - destruct (0 <=? ms); [|discriminate]. injection E as <-. exact H.
  - injection E as <-. unfold dispatch.
    generalize (listeners (window st)) as ls. intros ls. revert st H.
    induction ls as [|l ls IH]; intros st H; cbn; [exact H|].
    apply IH. destruct (DomEvent_eqb (fst l) e); [|exact H].
    now apply threshold_floor_runCallback.
  - injection E as <-. now rewrite (steady_threshold _ _ (steady_iter_update _ _)).
  - destruct (find _ _); [|discriminate].
    destruct (_ <=? _); [|discriminate]. injection E as <-.
    now rewrite (steady_threshold _ _ (steady_autoHide _)).
Qed.

Lemma enableHideAfterPixels_wired p st :
  DOMContentLoaded p = Controller st ->
  enableHideAfterPixels st = hideAfterPixels (pageWindow p).
Proof.
  unfold DOMContentLoaded. set (s := update _).
  assert (Hs : enableHideAfterPixels s = hideAfterPixels (pageWindow p))
    by (unfold s; now rewrite (steady_threshold _ _ (steady_update _))).
  destruct (tocContainer (pageDocument p)), (backToTopButton (pageDocument p));
    try discriminate;
    destruct (tocDetails (pageDocument p)); intros E; injection E as <-; exact Hs.
Qed.

Lemma reachable_threshold_floor st : reachable st -> 200 <= enableHideAfterPixels st.
Proof.
  induction 1 as [p st Hp E | e st st' _ IH E].
  - rewrite (enableHideAfterPixels_wired p st E). apply hideAfterPixels_floor.
  - eapply threshold_floor_step; eassumption.
Qed.

(** ** The frame queue *)

Lemma sameFrameFlag_trans st1 st2 st3 :
  sameFrameFlag st1 st2 -> sameFrameFlag st2 st3 -> sameFrameFlag st1 st3.
Proof. unfold sameFrameFlag. intros [] []. split; congruence. Qed.

Lemma sameFrameFlag_clearAutoHideTimer st : sameFrameFlag st (clearAutoHideTimer st).
Proof. rewrite clearAutoHideTimer_eq. split; reflexivity. Qed.

Lemma sameFrameFlag_scheduleAutoHide st : sameFrameFlag st (scheduleAutoHide st).
Proof.
  rewrite scheduleAutoHide_eq. destruct (autoHideConditions st).
  - split; reflexivity.
  - apply sameFrameFlag_clearAutoHideTimer.
Qed.

Lemma sameFrameFlag_setScrollDirectionHidden isHidden st :
  sameFrameFlag st (setScrollDirectionHidden isHidden st).
Proof.
  rewrite setScrollDirectionHidden_eq. destruct isHidden.
  - exact (sameFrameFlag_clearAutoHideTimer (set_document (toggled true st) st)).
  - exact (sameFrameFlag_scheduleAutoHide (set_document (toggled false st) st)).
Qed.

Lemma sameFrameFlag_autoHide st : sameFrameFlag st (autoHide st).
Proof.
  rewrite autoHide_eq. destruct (autoHideConditions st);
    [apply sameFrameFlag_setScrollDirectionHidden | split; reflexivity].
Qed.

Lemma sameFrameFlag_onToggle st : sameFrameFlag st (onToggle st).
Proof.
  unfold onToggle. destruct (tocDetailsOpen st); [|apply sameFrameFlag_scheduleAutoHide].
  eapply sameFrameFlag_trans; [|apply sameFrameFlag_clearAutoHideTimer].
  exact (sameFrameFlag_setScrollDirectionHidden false st).
Qed.

Lemma animationFrameCallbacks_update st :
  animationFrameCallbacks (window (update st)) = animationFrameCallbacks (window st).
Proof.
  rewrite update_eq. cbn zeta.
  destruct (negb _);
    [exact (proj2 (sameFrameFlag_setScrollDirectionHidden _ (set_rafPending false st)))|].
  destruct (_ <? minDelta); [reflexivity|].
  exact (proj2 (sameFrameFlag_setScrollDirectionHidden _ (set_rafPending false st))).
Qed.

Lemma animationFrameCallbacks_iter_update n st :
  animationFrameCallbacks (window (Nat.iter n update st)) =
  animationFrameCallbacks (window st).
Proof.
  induction n as [|n IH]; cbn; [reflexivity|].
  now rewrite animationFrameCallbacks_update.
Qed.

Lemma rafPending_iter_update n st :
  rafPending (Nat.iter n update st) = match n with O => rafPending st | S _ => false end.
Proof. destruct n; cbn; [reflexivity | apply rafPending_update]. Qed.

Lemma flagHasCallback_same st st' :
  sameFrameFlag st st' -> flagHasCallback st -> flagHasCallback st'.
Proof. unfold flagHasCallback. intros [-> ->]. trivial. Qed.

Lemma flagHasCallback_lowered st : rafPending st = false -> flagHasCallback st.
Proof. unfold flagHasCallback. congruence. Qed.

Lemma flagHasCallback_onScroll st : flagHasCallback st -> flagHasCallback (onScroll st).
Proof.
  unfold onScroll, flagHasCallback.
  destruct (rafPending st) eqn:E; [intros H _; now apply H|].
  cbn. intros _ _. discriminate.
Qed.

Lemma rafPending_onResize st : rafPending (onResize st) = false.
Proof. unfold onResize. apply rafPending_update. Qed.

Lemma flagHasCallback_runCallback cb st :
  flagHasCallback st -> flagHasCallback (runCallback cb st).
Proof.
  destruct cb; cbn [runCallback].
  - apply flagHasCallback_onScroll.
  - apply flagHasCallback_same, sameFrameFlag_scheduleAutoHide.
  - intros _. apply flagHasCallback_lowered, rafPending_onResize.
  - apply flagHasCallback_same, sameFrameFlag_onToggle.
Qed.

(** A frame lowers the flag and empties the queue. *)
Lemma frame_settles st st' :
  flagHasCallback st -> step AnimationFrame st = Some st' ->
  rafPending st' = false /\ animationFrameCallbacks (window st') = 0%nat.
Proof.
  intros H E. cbn [step] in E. injection E as <-.
  rewrite animationFrameCallbacks_iter_update, rafPending_iter_update. cbn.
  split; [|reflexivity].
  destruct (animationFrameCallbacks (window st)) eqn:En; [|reflexivity].
  destruct (rafPending st) eqn:Er; [|reflexivity].
  now destruct (H Er).
Qed.

Lemma flagHasCallback_step e st st' :
  step e st = Some st' -> flagHasCallback st -> flagHasCallback st'.
Proof.
  intros E H. destruct e; try (apply flagHasCallback_lowered;
                               exact (proj1 (frame_settles st st' H E)));
    cbn [step] in E.
  - injection E as <-. exact H.
  - injection E as <-. exact H.
  - destruct (setOpen b (document st)); [|discriminate]. injection E as <-. exact H.
  - destruct (0 <=? ms); [|discriminate]. injection E as <-. exact H.
  - injection E as <-. unfold dispatch.
    generalize (listeners (window st)) as ls. intros ls. revert st H.
    induction ls as [|l ls IH]; intros st H; cbn; [exact H|].
    apply IH. destruct (DomEvent_eqb (fst l) e); [|exact H].
    now apply flagHasCallback_runCallback.
  - destruct (find _ _); [|discriminate].
    destruct (_ <=? _); [|discriminate]. injection E as <-.
    eapply flagHasCallback_same; [apply sameFrameFlag_autoHide|]. exact H.
Qed.

Lemma rafPending_wired p st : DOMContentLoaded p = Controller st -> rafPending st = false.
Proof.
  unfold DOMContentLoaded. set (s := update _).
  assert (Hs : rafPending s = false) by apply rafPending_update.
  destruct (tocContainer (pageDocument p)), (backToTopButton (pageDocument p));
    try discriminate;
    destruct (tocDetails (pageDocument p)); intros E; injection E as <-; exact Hs.
Qed.

Lemma reachable_flagHasCallback st : reachable st -> flagHasCallback st.
Proof.
  induction 1 as [p st Hp E | e st st' _ IH E].
  - apply flagHasCallback_lowered. exact (rafPending_wired p st E).
  - eapply flagHasCallback_step; eassumption.
Qed.

(** ** More example states *)

Lemma scrolledUpAt900_reachable : reachable scrolledUpAt900.
Proof.
  apply (reachable_runPage (mkPage (phoneWindow 950) bothElements)
           [ScrollTo 900; Fire Scroll]);
    [apply pristine_phone | reflexivity].
Qed.

Lemma tallPhoneHiddenAt900_reachable : reachable tallPhoneHiddenAt900.
Proof.
  apply (reachable_step (ViewportChanges 500 2000) hiddenAt900);
    [apply hiddenAt900_reachable | reflexivity].
Qed.

Lemma hiddenNearTop_reachable : reachable hiddenNearTop.
Proof.
  apply (reachable_runPage (mkPage (phoneWindow 0) bothElements)
           [ScrollTo 424; Fire Scroll; AnimationFrame; ScrollTo 100]);
    [apply pristine_phone | reflexivity].
Qed.

(** ** The controller with the timer *)

(** X1: in every reachable state with a mobile viewport, an evaluation at
    least 8 px away from the baseline hides exactly when the scroll
    position has reached the threshold and is past the baseline (scrolling
    down): the "back to top" button then carries the class, the TOC
    container carries it unless the disclosure is open, and no timeout is
    left pending.  Otherwise both are shown, and a timeout due in 5000 ms
    is pending exactly when the position has reached the threshold and the
    disclosure is not open.  Either way the position becomes the
    baseline. *)
Theorem X1_mobile_decision st :
  reachable st ->
  isMobileViewport (window st) = true ->
  8 <= Z.abs (scrollY (window st) - lastScrollY st) ->
  let hide := (enableHideAfterPixels st <=? scrollY (window st))
              && (lastScrollY st <? scrollY (window st)) in
  tocHidden (update st) =
    match tocContainer (document st) with
    | Some _ => hide && negb (tocDetailsOpen st)
    | None => false
    end /\
  backToTopHidden (update st) =
    match backToTopButton (document st) with
    | Some _ => hide
    | None => false
    end /\
  lastScrollY (update st) = scrollY (window st) /\
  timerState (update st) =
    (if negb hide && autoHideConditions st
     then ([mkTimeout (nextTimeoutHandle (window st)) (clock (window st) + 5000)],
           nextTimeoutHandle (window st) + 1, Some (nextTimeoutHandle (window st)))
     else ([], nextTimeoutHandle (window st), None)).
Proof.
  intros R M Hd hide.
  pose proof (reachable_atMostOnePending _ R) as P.
  assert (E : update st =
              set_lastScrollY (scrollY (window st))
                (setScrollDirectionHidden hide (set_rafPending false st))).
  { rewrite update_eq. cbn zeta. rewrite M. cbn [negb]. unfold minDelta.
    destruct (Z.ltb_spec (Z.abs (scrollY (window st) - lastScrollY st)) 8); [lia|].
    unfold hide. rewrite Z.leb_antisym. do 3 f_equal.
    destruct (Z.ltb_spec 0 (scrollY (window st) - lastScrollY st)),
             (Z.ltb_spec (lastScrollY st) (scrollY (window st))); (reflexivity || lia). }
  rewrite E. split; [|split; [|split]].
  - change (tocHidden (setScrollDirectionHidden hide (set_rafPending false st)) = 
            match tocContainer (document st) with
            | Some _ => hide && negb (tocDetailsOpen st)
            | None => false
            end).
    exact (tocHidden_setScrollDirectionHidden hide (set_rafPending false st)).
  - change (backToTopHidden (setScrollDirectionHidden hide (set_rafPending false st)) =
            match backToTopButton (document st) with
            | Some _ => hide
            | None => false
            end).
    exact (backToTopHidden_setScrollDirectionHidden hide (set_rafPending false st)).
  - reflexivity.
  - change (timerState (set_lastScrollY (scrollY (window st))
                          (setScrollDirectionHidden hide (set_rafPending false st))))
      with (timerState (setScrollDirectionHidden hide (set_rafPending false st))).
    assert (P0 : atMostOnePending (set_rafPending false st)) by exact P.
    rewrite (timerState_setScrollDirectionHidden hide _ P0). reflexivity.
Qed.

Lemma X1_witness :
  reachable scrolledUpAt900 /\
  tocHidden (update scrolledUpAt900) = false /\
  backToTopHidden (update scrolledUpAt900) = false /\
  lastScrollY (update scrolledUpAt900) = 900 /\
  timerState (update scrolledUpAt900) = ([mkTimeout 1 5000], 2, Some 1).
Proof.
  split; [apply scrolledUpAt900_reachable|].
  assert (Hd : 8 <= Z.abs (scrollY (window scrolledUpAt900)
                           - lastScrollY scrolledUpAt900)) by (cbn; lia).
  exact (X1_mobile_decision scrolledUpAt900 scrolledUpAt900_reachable eq_refl Hd).
Defined.

(** X2: on a mobile viewport the resize listener recomputes the threshold
    from the viewport height and takes the scroll position as the baseline,
    and that is all it does: the evaluation it runs sees a zero difference
    and returns, so no class changes and the timer is left as it was, even
    when the position is now below the new threshold. *)
Theorem X2_resize_on_mobile st :
  isMobileViewport (window st) = true ->
  document (onResize st) = document st /\
  timerState (onResize st) = timerState st /\
  lastScrollY (onResize st) = scrollY (window st) /\
  enableHideAfterPixels (onResize st) = Z.max 200 (innerHeight (window st) * 6 / 10) /\
  rafPending (onResize st) = false.
Proof.
  intros M.
  assert (E : onResize st =
              set_rafPending false
                (set_lastScrollY (scrollY (window st))
                   (set_enableHideAfterPixels (hideAfterPixels (window st)) st))).
  { unfold onResize. rewrite update_eq. cbn zeta.
    cbn [window set_lastScrollY set_enableHideAfterPixels lastScrollY].
    rewrite M, Z.sub_diag. reflexivity. }
  rewrite E. repeat split.
Qed.

Lemma X2_witness :
  reachable tallPhoneHiddenAt900 /\
  isMobileViewport (window tallPhoneHiddenAt900) = true /\
  scrollY (window tallPhoneHiddenAt900) < enableHideAfterPixels (onResize tallPhoneHiddenAt900) /\
  document (onResize tallPhoneHiddenAt900) = elements true false.
Proof.
  split; [apply tallPhoneHiddenAt900_reachable|]. split; [reflexivity|].
  split; [reflexivity|].
  exact (proj1 (X2_resize_on_mobile tallPhoneHiddenAt900 eq_refl)).
Defined.

(** X3: in every reachable state the threshold is at least 200 px, and no
    step other than a resize event changes it; so while the scroll position
    is within the first 200 px the auto-hide callback does nothing and
    [scheduleAutoHide] leaves no timeout pending. *)
Theorem X3_threshold_floor st :
  reachable st ->
  200 <= enableHideAfterPixels st /\
  (forall e st', step e st = Some st' -> e <> Fire Resize ->
     enableHideAfterPixels st' = enableHideAfterPixels st) /\
  (scrollY (window st) < 200 ->
     autoHide st = st /\
     timerState (scheduleAutoHide st) = ([], nextTimeoutHandle (window st), None)).
Proof.
  intros R.
  pose proof (reachable_threshold_floor _ R) as F.
  pose proof (reachable_listenersWired _ R) as L.
  pose proof (reachable_atMostOnePending _ R) as P.
  split; [exact F|]. split.
  - intros e st' E Hne. destruct e; cbn [step] in E.
    + injection E as <-. reflexivity.
    + injection E as <-. reflexivity.
    + destruct (setOpen b (document st)); [|discriminate]. injection E as <-. reflexivity.
    + destruct (0 <=? ms); [|discriminate]. injection E as <-. reflexivity.
    + injection E as <-. rewrite dispatch_wired by exact L. destruct e.
      * apply (steady_threshold _ _ (steady_onScroll st)).
      * apply (steady_threshold _ _ (steady_scheduleAutoHide st)).
      * apply (steady_threshold _ _ (steady_scheduleAutoHide st)).
      * congruence.
      * destruct (tocDetails (document st)); [|reflexivity].
        apply (steady_threshold _ _ (steady_onToggle st)).
    + injection E as <-.
      exact (steady_threshold _ _
               (steady_iter_update _
                  (set_window (set_animationFrameCallbacks 0 (window st)) st))).
    + destruct (find _ _); [|discriminate].
      destruct (_ <=? _); [|discriminate]. injection E as <-.
      exact (steady_threshold _ _
               (steady_autoHide (set_window (clearTimeout h (window st)) st))).
  - intros Hy.
    assert (C : autoHideConditions st = false).
    { unfold autoHideConditions.
      destruct (Z.leb_spec (enableHideAfterPixels st) (scrollY (window st))); [lia|].
      now rewrite andb_false_r. }
    split.
    + now rewrite autoHide_eq, C.
    + now rewrite timerState_scheduleAutoHide, C.
Qed.

Lemma X3_witness :
  reachable hiddenNearTop /\ scrollY (window hiddenNearTop) < 200 /\
  autoHide hiddenNearTop = hiddenNearTop /\
  timerState (scheduleAutoHide hiddenNearTop) = ([], 1, None).
Proof.
  split; [apply hiddenNearTop_reachable|]. split; [reflexivity|].
  apply (X3_threshold_floor hiddenNearTop hiddenNearTop_reachable). reflexivity.
Defined.

(** X4: in every reachable state a raised [rafPending] flag has an [update]
    callback in the frame queue, so the flag cannot stay raised: the next
    frame lowers it and leaves the queue empty. *)
Theorem X4_frame_lowers_flag st :
  reachable st ->
  (rafPending st = true -> (1 <= animationFrameCallbacks (window st))%nat) /\
  (forall st', step AnimationFrame st = Some st' ->
     rafPending st' = false /\ animationFrameCallbacks (window st') = 0%nat).
Proof.
  intros R. pose proof (reachable_flagHasCallback _ R) as H. split.
  - intros Hr. specialize (H Hr). lia.
  - intros st' E. exact (frame_settles st st' H E).
Qed.

Lemma X4_witness :
  reachable scrolledUpAt900 /\ rafPending scrolledUpAt900 = true /\
  (1 <= animationFrameCallbacks (window scrolledUpAt900))%nat.
Proof.
  split; [apply scrolledUpAt900_reachable|]. split; [reflexivity|].
  exact (proj1 (X4_frame_lowers_flag scrolledUpAt900 scrolledUpAt900_reachable) eq_refl).
Defined.

Lemma onScroll_twice st : onScroll (onScroll st) = onScroll st.
Proof. unfold onScroll. destruct (rafPending st) eqn:E; [now rewrite E | reflexivity]. Qed.

Lemma step_Fire_Scroll st : listenersWired st -> step (Fire Scroll) st = Some (onScroll st).
Proof. intros L. cbn [step]. now rewrite dispatch_wired. Qed.

(** X5: scroll events are coalesced: in every reachable state, any number
    of scroll events in a row does what the first one does.  It queues one
    [update] callback and raises the flag when the flag is down, and
    nothing when it is up; the document, the baseline and the timer are
    not touched. *)
Theorem X5_scroll_events_coalesce st :
  reachable st ->
  (forall k, run (repeat (Fire Scroll) (S k)) st = Some (onScroll st)) /\
  rafPending (onScroll st) = true /\
  animationFrameCallbacks (window (onScroll st)) =
    (if rafPending st
     then animationFrameCallbacks (window st)
     else S (animationFrameCallbacks (window st))) /\
  document (onScroll st) = document st /\
  lastScrollY (onScroll st) = lastScrollY st /\
  timerState (onScroll st) = timerState st.
Proof.
  intros R. split.
  - intros k. revert st R. induction k as [|k IH]; intros st R.
    + cbn [repeat]. rewrite run_cons, step_Fire_Scroll
        by (now apply reachable_listenersWired). reflexivity.
    + change (repeat (Fire Scroll) (S (S k)))
        with (Fire Scroll :: repeat (Fire Scroll) (S k)).
      rewrite run_cons, step_Fire_Scroll by (now apply reachable_listenersWired).
      rewrite IH, onScroll_twice; [reflexivity|].
      eapply reachable_step; [exact R|].
      apply step_Fire_Scroll. now apply reachable_listenersWired.
  - unfold onScroll. destruct (rafPending st) eqn:E; repeat split; assumption.
Qed.

(** X6: the resize listener lowers the flag without taking the queued
    callback back, so in every reachable state with the flag raised, a
    resize event followed by a scroll event leaves one more [update]
    callback in the queue, at least two in all. *)
Theorem X6_resize_requeues st :
  reachable st -> rafPending st = true ->
  exists st',
    run [Fire Resize; Fire Scroll] st = Some st' /\
    animationFrameCallbacks (window st') = S (animationFrameCallbacks (window st)) /\
    (2 <= animationFrameCallbacks (window st'))%nat.
Proof.
  intros R Hr.
  pose proof (reachable_listenersWired _ R) as L.
  pose proof (reachable_flagHasCallback _ R Hr) as Hq.
  assert (S1 : step (Fire Resize) st = Some (onResize st))
    by (cbn [step]; now rewrite dispatch_wired).
  assert (L1 : listenersWired (onResize st)) by now apply listenersWired_onResize.
  exists (onScroll (onResize st)). split; [|split].
  - rewrite run_cons, S1, run_cons, step_Fire_Scroll by exact L1. reflexivity.
  - unfold onScroll. rewrite rafPending_onResize. cbn.
    unfold onResize. now rewrite animationFrameCallbacks_update.
  - unfold onScroll. rewrite rafPending_onResize. cbn.
    unfold onResize. rewrite animationFrameCallbacks_update. cbn. lia.
Qed.

Lemma X6_witness :
  reachable scrolledUpAt900 /\ rafPending scrolledUpAt900 = true /\
  option_map (fun st => animationFrameCallbacks (window st))
    (run [Fire Resize; Fire Scroll] scrolledUpAt900) = Some 2%nat.
Proof.
  split; [apply scrolledUpAt900_reachable|]. split; [reflexivity|].
  destruct (X6_resize_requeues scrolledUpAt900 scrolledUpAt900_reachable eq_refl)
    as (st' & E1 & E2 & _).
  rewrite E1. cbn [option_map]. rewrite E2. reflexivity.
Defined.

Lemma X5_witness :
  reachable hiddenAt900 /\
  run [Fire Scroll; Fire Scroll; Fire Scroll] hiddenAt900 = Some (onScroll hiddenAt900) /\
  animationFrameCallbacks (window (onScroll hiddenAt900)) = 1%nat.
Proof.
  split; [apply hiddenAt900_reachable|].
  split; [|reflexivity].
  exact (proj1 (X5_scroll_events_coalesce hiddenAt900 hiddenAt900_reachable) 2%nat).
Defined.

(** X7: in every reachable state the toggle listener, when it finds the
    disclosure open, removes the class from both elements, takes the scroll
    position as the baseline and leaves no timeout pending without calling
    [setTimeout]; when it finds the disclosure closed it is
    [scheduleAutoHide]: no class changes, and a timeout due in 5000 ms is
    pending exactly when the viewport is mobile and the position has
    reached the threshold. *)
Theorem X7_toggle_listener st :
  reachable st ->
  (tocDetailsOpen st = true ->
     tocHidden (onToggle st) = false /\
     backToTopHidden (onToggle st) = false /\
     lastScrollY (onToggle st) = scrollY (window st) /\
     timerState (onToggle st) = ([], nextTimeoutHandle (window st), None)) /\
  (tocDetailsOpen st = false ->
     document (onToggle st) = document st /\
     lastScrollY (onToggle st) = lastScrollY st /\
     timerState (onToggle st) =
       (if isMobileViewport (window st)
           && (enableHideAfterPixels st <=? scrollY (window st))
        then ([mkTimeout (nextTimeoutHandle (window st)) (clock (window st) + 5000)],
              nextTimeoutHandle (window st) + 1, Some (nextTimeoutHandle (window st)))
        else ([], nextTimeoutHandle (window st), None))).
Proof.
  intros R. pose proof (reachable_atMostOnePending _ R) as P. split; intros O.
  - assert (C : autoHideConditions st = false)
      by (unfold autoHideConditions; rewrite O; apply andb_false_r).
    pose proof (timerState_setScrollDirectionHidden false st P) as T.
    rewrite C in T. cbn [negb andb] in T.
    set (s1 := set_lastScrollY (scrollY (window (setScrollDirectionHidden false st)))
                 (setScrollDirectionHidden false st)).
    assert (E : onToggle st = clearAutoHideTimer s1)
      by (unfold onToggle; now rewrite O).
    assert (P1 : atMostOnePending s1)
      by exact (atMostOnePending_setScrollDirectionHidden false st P).
    rewrite E. split; [|split; [|split]].
    + rewrite (tocHidden_same_document _ _ (document_clearAutoHideTimer s1)).
      exact (tocHidden_open_setScrollDirectionHidden false st O).
    + rewrite (backToTopHidden_same_document _ _ (document_clearAutoHideTimer s1)).
      change (backToTopHidden (setScrollDirectionHidden false st) = false).
      rewrite backToTopHidden_setScrollDirectionHidden.
      now destruct (backToTopButton (document st)).
    + rewrite clearAutoHideTimer_eq. cbn.
      apply (steady_scrollY _ _ (steady_setScrollDirectionHidden false st)).
    + rewrite (timerState_clearAutoHideTimer s1 P1).
      unfold disarmedTimer. change (nextTimeoutHandle (window s1))
        with (nextTimeoutHandle (window (setScrollDirectionHidden false st))).
      unfold timerState, disarmedTimer in T. injection T as _ Tn _. now rewrite Tn.
  - assert (E : onToggle st = scheduleAutoHide st)
      by (unfold onToggle; now rewrite O).
    rewrite E. split; [apply document_scheduleAutoHide|]. split.
    + rewrite scheduleAutoHide_eq. destruct (autoHideConditions st);
        [reflexivity | now rewrite clearAutoHideTimer_eq].
    + rewrite (timerState_scheduleAutoHide st P). unfold autoHideConditions.
      rewrite O. cbn [negb]. now rewrite andb_true_r.
Qed.

Lemma X7_witness :
  reachable openTimerDue /\ tocDetailsOpen openTimerDue = true /\
  timeouts (window openTimerDue) = [mkTimeout 1 5000] /\
  timerState (onToggle openTimerDue) = ([], 2, None).
Proof.
  split; [apply openTimerDue_reachable|]. split; [reflexivity|].
  split; [reflexivity|].
  apply (proj1 (X7_toggle_listener openTimerDue openTimerDue_reachable)).
  reflexivity.
Defined.

(** X8: no step of the event loop adds or removes, on either element, a
    class other than [scroll-direction-hidden]. *)
Theorem X8_other_classes_untouched e st st' c :
  step e st = Some st' -> c <> className ->
  tocHasClass c st' = tocHasClass c st /\
  backToTopHasClass c st' = backToTopHasClass c st.
Proof.
  intros E Hc.
  destruct e as [y|w h|b|ms|ev| |h].
  4: { cbn [step] in E. destruct (0 <=? ms); [|discriminate].
       injection E as <-. split; reflexivity. }
  all: (assert (B : bystander st st') by (apply (bystander_step _ _ _ E); discriminate);
        split; [apply (bystander_toc _ _ B) | apply (bystander_backToTop _ _ B)];
        exact Hc).
Qed.

Lemma X8_witness :
  step AnimationFrame scrolledBelowThreshold = Some (update
    (set_window (set_animationFrameCallbacks 0 (window scrolledBelowThreshold))
       scrolledBelowThreshold)) /\
  backToTopHidden scrolledBelowThreshold = true /\
  option_map backToTopHidden (step AnimationFrame scrolledBelowThreshold) = Some false /\
  option_map (backToTopHasClass "hidden") (step AnimationFrame scrolledBelowThreshold)
    = Some true.
Proof.
  split; [reflexivity|]. split; [reflexivity|]. split; [reflexivity|].
  assert (Hc : "hidden"%string <> className) by discriminate.
  pose proof (X8_other_classes_untouched AnimationFrame scrolledBelowThreshold _
                "hidden"%string eq_refl Hc) as [_ H].
  cbn [step option_map]. now rewrite H.
Defined.

(** X9: in every reachable state every pending timeout is due no later
    than 5000 ms from the current time. *)
Theorem X9_timeout_due_within_delay st :
  reachable st ->
  forall t, In t (timeouts (window st)) -> fireAt t <= clock (window st) + 5000.
Proof. intros R. exact (reachable_dueWithinDelay st R). Qed.

Lemma X9_witness :
  reachable openTimerDue /\
  In (mkTimeout 1 5000) (timeouts (window openTimerDue)) /\
  fireAt (mkTimeout 1 5000) <= clock (window openTimerDue) + 5000.
Proof.
  split; [apply openTimerDue_reachable|].
  assert (Hin : In (mkTimeout 1 5000) (timeouts (window openTimerDue)))
    by (left; reflexivity).
  split; [exact Hin|].
  exact (X9_timeout_due_within_delay openTimerDue openTimerDue_reachable _ Hin).
Defined.

(** X10: the controller wired on a pristine page starts with no timeout
    pending and none ever requested, the scroll position as the baseline,
    the flag down and the frame queue empty.  On a mobile viewport wiring
    leaves the document as the page had it, wherever the page is scrolled
    to; on any other viewport it removes the class from both elements. *)
Theorem X10_wired_state p st :
  pristine p -> DOMContentLoaded p = Controller st ->
  timerState st = ([], nextTimeoutHandle (pageWindow p), None) /\
  lastScrollY st = scrollY (pageWindow p) /\
  rafPending st = false /\
  animationFrameCallbacks (window st) = 0%nat /\
  (isMobileViewport (pageWindow p) = true -> document st = pageDocument p) /\
  (isMobileViewport (pageWindow p) = false ->
     tocHidden st = false /\ backToTopHidden st = false).
Proof.
  intros Hp E. pose proof Hp as (Ht & Hq & Hl).
  unfold DOMContentLoaded in E.
  set (s0 := mkState _ _ _ _ _ _) in E.
  set (s1 := set_window _ (set_window _ (set_window _ (set_window _ s0)))) in E.
  assert (P1 : atMostOnePending s1).
  { unfold atMostOnePending. cbn. rewrite Ht. cbn. split; [lia | tauto]. }
  assert (H : timerState (update s1) = ([], nextTimeoutHandle (pageWindow p), None) /\
              lastScrollY (update s1) = scrollY (pageWindow p) /\
              rafPending (update s1) = false /\
              animationFrameCallbacks (window (update s1)) = 0%nat /\
              (isMobileViewport (pageWindow p) = true ->
                 document (update s1) = pageDocument p) /\
              (isMobileViewport (pageWindow p) = false ->
                 tocHidden (update s1) = false /\ backToTopHidden (update s1) = false)).
  { rewrite animationFrameCallbacks_update, rafPending_update.
    rewrite update_eq. cbn zeta.
    change (isMobileViewport (window s1)) with (isMobileViewport (pageWindow p)).
    change (scrollY (window s1)) with (scrollY (pageWindow p)).
    change (lastScrollY s1) with (scrollY (pageWindow p)).
    rewrite Z.sub_diag. cbn [Z.abs]. change (0 <? minDelta) with true.
    destruct (isMobileViewport (pageWindow p)) eqn:M; cbn [negb].
    - split; [|repeat split; try discriminate; exact Hq].
      unfold timerState. cbn. now rewrite Ht.
    - assert (P0 : atMostOnePending (set_rafPending false s1)) by exact P1.
      pose proof (timerState_setScrollDirectionHidden false _ P0) as T.
      assert (C : autoHideConditions (set_rafPending false s1) = false)
        by (apply desktop_no_autoHideConditions; exact M).
      rewrite C in T. cbn [negb andb] in T.
      split; [exact T|]. split; [reflexivity|]. split; [reflexivity|].
      split; [exact Hq|]. split; [discriminate|]. intros _. split.
      + change (tocHidden (setScrollDirectionHidden false (set_rafPending false s1)) = false).
        rewrite tocHidden_setScrollDirectionHidden. now destruct (tocContainer _).
      + change (backToTopHidden (setScrollDirectionHidden false (set_rafPending false s1))
                = false).
        rewrite backToTopHidden_setScrollDirectionHidden.
        now destruct (backToTopButton _). }
  destruct (tocContainer (pageDocument p)), (backToTopButton (pageDocument p));
    try discriminate;
    destruct (tocDetails (pageDocument p)); injection E as <-; exact H.
Qed.

Lemma X10_witness :
  pristine (mkPage (phoneWindow 900) (elements true false)) /\
  (exists st,
     DOMContentLoaded (mkPage (phoneWindow 900) (elements true false)) = Controller st /\
     timerState st = ([], 1, None) /\
     document st = elements true false).
Proof.
  split; [apply pristine_phone|].
  destruct (DOMContentLoaded (mkPage (phoneWindow 900) (elements true false)))
    as [|st] eqn:E; [discriminate|].
  exists st. split; [reflexivity|].
  pose proof (X10_wired_state _ st (pristine_phone 900 (elements true false)) E)
    as (T & _ & _ & _ & D & _).
  split; [exact T | exact (D eq_refl)].
Defined.

(** ** The variant without the timer *)

(** [FixedThreshold.update], branch by branch. *)
Lemma FixedThreshold_update_eq st :
  FixedThreshold.update (withoutTimer st) =
  if negb (isMobileViewport (window st)) then
    FixedThreshold.mkState (window st) (toggled false st) (scrollY (window st)) false
  else if Z.abs (scrollY (window st) - lastScrollY st) <? minDelta then
    FixedThreshold.mkState (window st) (document st) (lastScrollY st) false
  else
    FixedThreshold.mkState (window st)
      (toggled ((50 <=? scrollY (window st)) && (lastScrollY st <? scrollY (window st))) st)
      (scrollY (window st)) false.
Proof.
  unfold FixedThreshold.update, withoutTimer. cbn.
  destruct (isMobileViewport (window st)); cbn; [|reflexivity].
  destruct (Z.abs _ <? minDelta); [reflexivity|].
  rewrite Z.leb_antisym.
  replace (0 <? scrollY (window st) - lastScrollY st)
    with (lastScrollY st <? scrollY (window st))
    by (destruct (Z.ltb_spec 0 (scrollY (window st) - lastScrollY st)),
                 (Z.ltb_spec (lastScrollY st) (scrollY (window st)));
        (reflexivity || lia)).
  destruct (scrollY (window st) <? 50); reflexivity.
Qed.

(** The document after [update] of the controller with the timer. *)
Lemma document_update st :
  document (update st) =
  if negb (isMobileViewport (window st)) then toggled false st
  else if Z.abs (scrollY (window st) - lastScrollY st) <? minDelta then document st
  else toggled ((enableHideAfterPixels st <=? scrollY (window st))
                && (lastScrollY st <? scrollY (window st))) st.
Proof.
  rewrite update_eq. cbn zeta.
  destruct (negb _).
  - exact (setScrollDirectionHidden_document false (set_rafPending false st)).
  - destruct (_ <? minDelta); [reflexivity|].
    rewrite Z.leb_antisym.
    replace (0 <? scrollY (window st) - lastScrollY st)
      with (lastScrollY st <? scrollY (window st))
      by (destruct (Z.ltb_spec 0 (scrollY (window st) - lastScrollY st)),
                   (Z.ltb_spec (lastScrollY st) (scrollY (window st)));
          (reflexivity || lia)).
    exact (setScrollDirectionHidden_document _ (set_rafPending false st)).
Qed.

Lemma backToTopHidden_toggled isHidden st :
  match backToTopButton (toggled isHidden st) with
  | Some b => hasHiddenClass (classList b)
  | None => false
  end = match backToTopButton (document st) with
        | Some _ => isHidden
        | None => false
        end.
Proof.
  unfold toggled. cbn. destruct (backToTopButton (document st)); [|reflexivity].
  apply ClassListFacts.contains_toggle.
Qed.

Lemma tocHidden_toggled isHidden st :
  match tocContainer (toggled isHidden st) with
  | Some toc => hasHiddenClass (tocClassList toc)
  | None => false
  end = match tocContainer (document st) with
        | Some _ => isHidden && negb (tocDetailsOpen st)
        | None => false
        end.
Proof.
  unfold toggled. cbn. destruct (tocContainer (document st)); [|reflexivity].
  apply ClassListFacts.contains_toggle.
Qed.

(** X11: the variant without the timer, on a mobile viewport and at least
    8 px away from the baseline, hides exactly when the scroll position is
    at least 50 px and past the baseline: the "back to top" button then
    carries the class and the TOC container carries it unless the
    disclosure is open; the position becomes the baseline.  Within 8 px of
    the baseline it only lowers its flag. *)
Theorem X11_fixed_threshold_decision (v : FixedThreshold.State) :
  isMobileViewport (FixedThreshold.window v) = true ->
  (Z.abs (scrollY (FixedThreshold.window v) - FixedThreshold.lastScrollY v) < 8 ->
     FixedThreshold.update v =
       FixedThreshold.mkState (FixedThreshold.window v) (FixedThreshold.document v)
                              (FixedThreshold.lastScrollY v) false) /\
  (8 <= Z.abs (scrollY (FixedThreshold.window v) - FixedThreshold.lastScrollY v) ->
     let hide := (50 <=? scrollY (FixedThreshold.window v))
                 && (FixedThreshold.lastScrollY v <? scrollY (FixedThreshold.window v)) in
     FixedThreshold.tocHidden (FixedThreshold.update v) =
       match tocContainer (FixedThreshold.document v) with
       | Some _ => hide && negb (FixedThreshold.tocDetailsOpen v)
       | None => false
       end /\
     FixedThreshold.backToTopHidden (FixedThreshold.update v) =
       match backToTopButton (FixedThreshold.document v) with
       | Some _ => hide
       | None => false
       end /\
     FixedThreshold.lastScrollY (FixedThreshold.update v) =
       scrollY (FixedThreshold.window v)).
Proof.
  destruct v as [w d y r]. cbn [FixedThreshold.window FixedThreshold.document
                                FixedThreshold.lastScrollY].
  intros M.
  pose proof (FixedThreshold_update_eq (mkState w d y r 0 None)) as E.
  unfold withoutTimer in E. cbn [window document lastScrollY rafPending] in E.
  rewrite M in E. cbn [negb] in E. unfold minDelta in E.
  split; intros Hd.
  - apply Z.ltb_lt in Hd. now rewrite Hd in E.
  - destruct (Z.ltb_spec (Z.abs (scrollY w - y)) 8); [lia|].
    rewrite E.
    unfold FixedThreshold.tocHidden, FixedThreshold.backToTopHidden.
    cbn [FixedThreshold.document FixedThreshold.lastScrollY].
    split; [|split; [|reflexivity]].
    + exact (tocHidden_toggled _ (mkState w d y r 0 None)).
    + exact (backToTopHidden_toggled _ (mkState w d y r 0 None)).
Qed.

Lemma X11_witness :
  isMobileViewport (FixedThreshold.window (withoutTimer scrolledBelowThreshold)) = true /\
  scrollY (FixedThreshold.window (withoutTimer scrolledBelowThreshold)) = 400 /\
  FixedThreshold.lastScrollY (withoutTimer scrolledBelowThreshold) = 424 /\
  FixedThreshold.backToTopHidden
    (FixedThreshold.update (withoutTimer scrolledBelowThreshold)) = false.
Proof.
  split; [reflexivity|]. split; [reflexivity|]. split; [reflexivity|].
  assert (Hd : 8 <= Z.abs (scrollY (FixedThreshold.window
                                      (withoutTimer scrolledBelowThreshold))
                           - FixedThreshold.lastScrollY
                               (withoutTimer scrolledBelowThreshold)))
    by (cbn; lia).
  exact (proj1 (proj2 (proj2 (X11_fixed_threshold_decision
                                (withoutTimer scrolledBelowThreshold) eq_refl) Hd))).
Defined.

(** X12: the two variants of the controller put the same classes on the
    elements and record the same baseline in every reachable state, except
    for an evaluation on a mobile viewport that is at least 8 px past the
    baseline with the scroll position from 50 px up to the threshold: there
    the variant without the timer hides the "back to top" button and the
    variant with the timer shows it. *)
Theorem X12_variants_agree_outside_band st :
  reachable st ->
  let inBand :=
    isMobileViewport (window st)
    && (8 <=? scrollY (window st) - lastScrollY st)
    && (50 <=? scrollY (window st))
    && (scrollY (window st) <? enableHideAfterPixels st) in
  (inBand = false ->
     FixedThreshold.document (FixedThreshold.update (withoutTimer st)) =
       document (update st) /\
     FixedThreshold.lastScrollY (FixedThreshold.update (withoutTimer st)) =
       lastScrollY (update st)) /\
  (inBand = true -> backToTopButton (document st) <> None ->
     FixedThreshold.backToTopHidden (FixedThreshold.update (withoutTimer st)) = true /\
     backToTopHidden (update st) = false).
Proof.
  intros R inBand. pose proof (reachable_threshold_floor _ R) as F.
  pose proof (FixedThreshold_update_eq st) as E1.
  pose proof (document_update st) as E2.
  assert (E3 : lastScrollY (update st) =
               if negb (isMobileViewport (window st)) then scrollY (window st)
               else if Z.abs (scrollY (window st) - lastScrollY st) <? minDelta
                    then lastScrollY st else scrollY (window st)).
  { rewrite update_eq. cbn zeta. destruct (negb _); [reflexivity|].
    destruct (_ <? minDelta); reflexivity. }
  unfold inBand, minDelta in *. clear inBand.
  destruct (isMobileViewport (window st)) eqn:M; cbn [negb andb] in *.
  2: { split; [|discriminate]. intros _. rewrite E1, E2, E3. split; reflexivity. }
  destruct (Z.ltb_spec (Z.abs (scrollY (window st) - lastScrollY st)) 8) as [Hj|Hj].
  { split.
    - intros _. rewrite E1, E2, E3. split; reflexivity.
    - destruct (Z.leb_spec 8 (scrollY (window st) - lastScrollY st)); [lia|].
      discriminate. }
  split.
  - intros Hb. rewrite E1, E2, E3. split; [|reflexivity].
    cbn [FixedThreshold.document]. f_equal.
    destruct (Z.leb_spec 8 (scrollY (window st) - lastScrollY st)),
             (Z.leb_spec 50 (scrollY (window st))),
             (Z.ltb_spec (scrollY (window st)) (enableHideAfterPixels st)),
             (Z.leb_spec (enableHideAfterPixels st) (scrollY (window st))),
             (Z.ltb_spec (lastScrollY st) (scrollY (window st)));
      cbn in Hb |- *; try reflexivity; try discriminate; lia.
  - intros Hb B. unfold FixedThreshold.backToTopHidden, backToTopHidden.
    rewrite E1, E2. cbn [FixedThreshold.document].
    rewrite !backToTopHidden_toggled.
    destruct (backToTopButton (document st)); [|congruence].
    destruct (Z.leb_spec 8 (scrollY (window st) - lastScrollY st)),
             (Z.leb_spec 50 (scrollY (window st))),
             (Z.ltb_spec (scrollY (window st)) (enableHideAfterPixels st)),
             (Z.leb_spec (enableHideAfterPixels st) (scrollY (window st))),
             (Z.ltb_spec (lastScrollY st) (scrollY (window st)));
      cbn in Hb |- *; try discriminate; try lia; split; reflexivity.
Qed.

Lemma scrolledInBand_reachable : reachable scrolledInBand.
Proof.
  apply (reachable_runPage (mkPage (phoneWindow 0) bothElements)
           [ScrollTo 300; Fire Scroll]);
    [apply pristine_phone | reflexivity].
Qed.

Lemma X12_witness :
  reachable scrolledInBand /\
  FixedThreshold.backToTopHidden (FixedThreshold.update (withoutTimer scrolledInBand))
    = true /\
  backToTopHidden (update scrolledInBand) = false.
Proof.
  split; [apply scrolledInBand_reachable|].
  assert (B : backToTopButton (document scrolledInBand) <> None) by discriminate.
  exact (proj2 (X12_variants_agree_outside_band scrolledInBand scrolledInBand_reachable)
           eq_refl B).
Defined.

(** ** The visibility of the "back to top" button *)

Lemma toggle_commute_contains a b f g c l :
  a <> b ->
  ClassList.contains c (ClassList.toggle a f (ClassList.toggle b g l)) =
  ClassList.contains c (ClassList.toggle b g (ClassList.toggle a f l)).
Proof.
  intros Hab.
  destruct (string_dec c a) as [->|Hca].
  - rewrite ClassListFacts.contains_toggle.
    rewrite (ClassListFacts.contains_toggle_other b a) by congruence.
    now rewrite ClassListFacts.contains_toggle.
  - rewrite (ClassListFacts.contains_toggle_other a c) by congruence.
    destruct (string_dec c b) as [->|Hcb].
    + now rewrite !ClassListFacts.contains_toggle.
    + rewrite !(ClassListFacts.contains_toggle_other b c) by congruence.
      now rewrite (ClassListFacts.contains_toggle_other a c) by congruence.
Qed.

Lemma buttonHidden_updateVisibility (bt : BackToTop.State) :
  BackToTop.buttonHidden (BackToTop.updateVisibility bt) =
    (scrollY (BackToTop.window bt) <=? BackToTop.showAfterPixels bt) /\
  BackToTop.isTicking (BackToTop.updateVisibility bt) = false.
Proof.
  unfold BackToTop.buttonHidden, BackToTop.updateVisibility. cbn. split; [|reflexivity].
  rewrite ClassListFacts.contains_toggle. symmetry. apply Z.leb_antisym.
Qed.

(** X13: after [updateVisibility] the button carries the class [hidden]
    exactly when the page is scrolled no further than [showAfterPixels],
    the flag is down, every other class of the button is as it was, and
    running it again changes nothing. *)
Theorem X13_updateVisibility (bt : BackToTop.State) :
  BackToTop.buttonHidden (BackToTop.updateVisibility bt) =
    (scrollY (BackToTop.window bt) <=? BackToTop.showAfterPixels bt) /\
  BackToTop.isTicking (BackToTop.updateVisibility bt) = false /\
  (forall c, c <> BackToTop.hiddenClass ->
     ClassList.contains c (classList (BackToTop.button (BackToTop.updateVisibility bt))) =
     ClassList.contains c (classList (BackToTop.button bt))) /\
  BackToTop.updateVisibility (BackToTop.updateVisibility bt) =
    BackToTop.updateVisibility bt.
Proof.
  unfold BackToTop.buttonHidden, BackToTop.updateVisibility. cbn.
  split; [|split; [|split]].
  - rewrite ClassListFacts.contains_toggle. symmetry. apply Z.leb_antisym.
  - reflexivity.
  - intros c Hc. apply ClassListFacts.contains_toggle_other. congruence.
  - now rewrite ClassListFacts.toggle_idempotent.
Qed.

(** X14: [showAfterPixels] is the height of the window when the script
    was loaded: after the window has been scrolled and resized in any way,
    [updateVisibility], which is also the resize listener, leaves the
    button hidden exactly when the scroll position is no greater than that
    first height, whatever the height is now. *)
Theorem X14_show_after_first_height w b bt w' :
  BackToTop.DOMContentLoaded w (Some b) = Some bt ->
  BackToTop.buttonHidden bt = (scrollY w <=? innerHeight w) /\
  BackToTop.buttonHidden (BackToTop.updateVisibility (BackToTop.set_window w' bt)) =
    (scrollY w' <=? innerHeight w).
Proof.
  cbn [BackToTop.DOMContentLoaded]. intros E. injection E as <-.
  split.
  - exact (proj1 (buttonHidden_updateVisibility (BackToTop.mkState w b (innerHeight w) false))).
  - exact (proj1 (buttonHidden_updateVisibility
                    (BackToTop.set_window w'
                       (BackToTop.updateVisibility
                          (BackToTop.mkState w b (innerHeight w) false))))).
Qed.

Lemma X14_witness :
  BackToTop.DOMContentLoaded (phoneWindow 0) (Some (mkElement []))
    = Some (BackToTop.mkState (phoneWindow 0) (mkElement ["hidden"%string]) 700 false) /\
  BackToTop.buttonHidden
    (BackToTop.updateVisibility
       (BackToTop.set_window (mkWindow 800 2000 500 true 0 [] 1 0 [])
          (BackToTop.mkState (phoneWindow 0) (mkElement ["hidden"%string]) 700 false)))
    = false.
Proof.
  split; [reflexivity|].
  exact (proj2 (X14_show_after_first_height (phoneWindow 0) (mkElement []) _
                  (mkWindow 800 2000 500 true 0 [] 1 0 []) eq_refl)).
Defined.

(** X15: the controller and the visibility script share the "back to top"
    button without interfering: whichever of [setScrollDirectionHidden] and
    [updateVisibility] runs first, the button ends up with the same classes
    (as a set): [scroll-direction-hidden] as the controller decided,
    [hidden] as the scroll position demands. *)
Theorem X15_scripts_commute isHidden st bt :
  backToTopButton (document st) = Some (BackToTop.button bt) ->
  (forall c,
     option_map (fun b => ClassList.contains c (classList b))
       (controllerThenScript isHidden st bt) =
     option_map (fun b => ClassList.contains c (classList b))
       (scriptThenController isHidden st bt)) /\
  option_map (fun b => ClassList.contains className (classList b))
    (controllerThenScript isHidden st bt) = Some isHidden /\
  option_map (fun b => ClassList.contains BackToTop.hiddenClass (classList b))
    (controllerThenScript isHidden st bt) =
    Some (scrollY (BackToTop.window bt) <=? BackToTop.showAfterPixels bt).
Proof.
  intros H.
  assert (Hne : BackToTop.hiddenClass <> className) by discriminate.
  unfold controllerThenScript, scriptThenController.
  rewrite !setScrollDirectionHidden_document. unfold toggled.
  cbn [backToTopButton document set_backToTopButton set_document].
  rewrite H.
  cbn [option_map BackToTop.button BackToTop.updateVisibility BackToTop.set_button
       BackToTop.window BackToTop.showAfterPixels classList].
  split; [|split].
  - intros c. f_equal. now apply toggle_commute_contains.
  - f_equal. rewrite ClassListFacts.contains_toggle_other by congruence.
    apply ClassListFacts.contains_toggle.
  - f_equal. rewrite ClassListFacts.contains_toggle. symmetry. apply Z.leb_antisym.
Qed.

Lemma X15_witness :
  backToTopButton (document hiddenAt900) =
    Some (BackToTop.button
            (BackToTop.mkState (window hiddenAt900)
               (mkElement ["hidden"%string; className]) 700 false)) /\
  option_map classList
    (controllerThenScript false hiddenAt900
       (BackToTop.mkState (window hiddenAt900)
          (mkElement ["hidden"%string; className]) 700 false)) = Some [] /\
  option_map (fun b => ClassList.contains className (classList b))
    (controllerThenScript false hiddenAt900
       (BackToTop.mkState (window hiddenAt900)
          (mkElement ["hidden"%string; className]) 700 false)) = Some false.
Proof.
  split; [reflexivity|]. split; [reflexivity|].
  exact (proj1 (proj2 (X15_scripts_commute false hiddenAt900
                         (BackToTop.mkState (window hiddenAt900)
                            (mkElement ["hidden"%string; className]) 700 false)
                         eq_refl))).
Defined.

(** X16: in the variant without the timer, the resize listener on a mobile
    viewport only takes the scroll position as the baseline and lowers the
    flag; the toggle listener removes the class from both elements and
    takes the baseline when it finds the disclosure open and does nothing
    when it finds it closed; and evaluating twice in a row gives the state
    the first evaluation gave. *)
Theorem X16_fixed_threshold_listeners (v : FixedThreshold.State) :
  (isMobileViewport (FixedThreshold.window v) = true ->
     FixedThreshold.onResize v =
       FixedThreshold.mkState (FixedThreshold.window v) (FixedThreshold.document v)
                              (scrollY (FixedThreshold.window v)) false) /\
  (FixedThreshold.tocDetailsOpen v = true ->
     FixedThreshold.tocHidden (FixedThreshold.onToggle v) = false /\
     FixedThreshold.backToTopHidden (FixedThreshold.onToggle v) = false /\
     FixedThreshold.lastScrollY (FixedThreshold.onToggle v) =
       scrollY (FixedThreshold.window v)) /\
  (FixedThreshold.tocDetailsOpen v = false -> FixedThreshold.onToggle v = v) /\
  FixedThreshold.update (FixedThreshold.update v) = FixedThreshold.update v.
Proof.
  destruct v as [w d y r].
  cbn [FixedThreshold.window FixedThreshold.document FixedThreshold.lastScrollY].
  split; [|split; [|split]].
  - intros M. unfold FixedThreshold.onResize. cbn [FixedThreshold.window
      FixedThreshold.document FixedThreshold.rafPending].
    pose proof (FixedThreshold_update_eq (mkState w d (scrollY w) r 0 None)) as E.
    unfold withoutTimer in E. cbn [window document lastScrollY rafPending] in E.
    rewrite E, M, Z.sub_diag. reflexivity.
  - intros O. unfold FixedThreshold.onToggle. rewrite O.
    change (FixedThreshold.setScrollDirectionHidden false (FixedThreshold.mkState w d y r))
      with (FixedThreshold.mkState w (toggled false (mkState w d y r 0 None)) y r).
    unfold FixedThreshold.tocHidden, FixedThreshold.backToTopHidden.
    cbn [FixedThreshold.window FixedThreshold.document FixedThreshold.lastScrollY].
    rewrite tocHidden_toggled, backToTopHidden_toggled. cbn [document].
    split; [now destruct (tocContainer d)|]. split; [now destruct (backToTopButton d)|].
    reflexivity.
  - intros O. unfold FixedThreshold.onToggle. now rewrite O.
  - pose proof (FixedThreshold_update_eq (mkState w d y r 0 None)) as E.
    unfold withoutTimer in E. cbn [window document lastScrollY rafPending] in E.
    rewrite E. unfold minDelta.
    destruct (isMobileViewport w) eqn:M; cbn [negb].
    + destruct (Z.abs (scrollY w - y) <? 8) eqn:J.
      * pose proof (FixedThreshold_update_eq (mkState w d y false 0 None)) as E'.
        unfold withoutTimer in E'. cbn [window document lastScrollY rafPending] in E'.
        rewrite E', M. cbn [negb]. unfold minDelta. now rewrite J.
      * match goal with |- FixedThreshold.update (FixedThreshold.mkState _ ?d' _ _) = _ =>
          pose proof (FixedThreshold_update_eq (mkState w d' (scrollY w) false 0 None)) as E'
        end.
        unfold withoutTimer in E'. cbn [window document lastScrollY rafPending] in E'.
        rewrite E', M, Z.sub_diag. reflexivity.
    + pose proof (FixedThreshold_update_eq
                    (mkState w (toggled false (mkState w d y r 0 None))
                             (scrollY w) false 0 None)) as E'.
      unfold withoutTimer in E'. cbn [window document lastScrollY rafPending] in E'.
      rewrite E', M. cbn [negb]. f_equal.
      unfold toggled, tocDetailsOpen, tocDetails. cbn.
      destruct d as [[toc|] [b|]]; cbn;
        rewrite ?ClassListFacts.toggle_idempotent; reflexivity.
Qed.

Lemma X16_witness :
  isMobileViewport (FixedThreshold.window (withoutTimer tallPhoneHiddenAt900)) = true /\
  FixedThreshold.tocHidden (FixedThreshold.onResize (withoutTimer tallPhoneHiddenAt900))
    = true.
Proof.
  split; [reflexivity|].
  rewrite (proj1 (X16_fixed_threshold_listeners (withoutTimer tallPhoneHiddenAt900))
             eq_refl).
  reflexivity.
Defined.
